(** * SourcesEditor: the change handlers of the sources list editor

    Shallow embedding of
    [colrev/ui_web/src/components/sources/SourcesEditor.tsx].

    The component receives two props, the array [sources] and the callback
    [sourcesChanged], and defines five handlers plus one inline callback
    handed to the nested scripts editor.  All of them mutate objects that
    the parent owns and then call [sourcesChanged] with an array.  The
    properties of interest are about object identity, so the embedding
    keeps an explicit store: objects and arrays live at locations, handlers
    are state transformers, and the calls made to [sourcesChanged] are
    recorded in a log. *)

From stdpp Require Import gmap strings list fin_maps pretty.

Open Scope string_scope.
Open Scope list_scope.

(** ** Values and the store *)

(** Object and array references. *)
Abbreviation loc := positive.

(** The JavaScript values that can reach the handlers: the value of a text
    input is a string, a missing property reads as [undefined], nested
    objects are references. *)
Inductive jsval : Type :=
| VUndefined
| VNull
| VString (s : string)
| VRef (l : loc).

#[global] Instance jsval_eq_dec : EqDecision jsval.
Proof. solve_decision. Defined.

(** A plain object: its own properties, by name. *)
Abbreviation obj := (gmap string jsval).

(** The store, together with the log of arguments [sourcesChanged] has been
    called with (oldest first).  [Source[]] arrays hold references to
    objects; the two kinds of reference are kept apart as the TypeScript
    types [Source] and [Source[]] keep them apart. *)
Record state : Type := State {
  objs : gmap loc obj;
  arrs : gmap loc (list loc);
  calls : list loc
}.

(** ** Exceptions *)

Inductive error : Type :=
| TypeError      (* property access on undefined, null or a primitive *)
| DanglingRef.   (* a reference outside the store; no JavaScript value is one *)

Inductive result (A : Type) : Type :=
| Ok (a : A)
| Throw (e : error).
Arguments Ok {A} a.
Arguments Throw {A} e.

Definition M (A : Type) : Type := state → result (A * state).

#[global] Instance M_ret : MRet M := λ A a st, Ok (a, st).

#[global] Instance M_bind : MBind M := λ A B k m st,
  match m st with
  | Ok (a, st') => k a st'
  | Throw e => Throw e
  end.

(** ** Property access *)

(** [o.f] on an object of the store: an absent property reads [undefined]. *)
Definition prop (o : obj) (f : string) : jsval := default VUndefined (o !! f).

(** [v.f] for the property names used here (none is an index or [length]). *)
Definition get_prop (v : jsval) (f : string) : M jsval :=
  λ st, match v with
        | VUndefined | VNull => Throw TypeError
        | VString _ => Ok (VUndefined, st)
        | VRef l => match objs st !! l with
                    | Some o => Ok (prop o f, st)
                    | None => Throw DanglingRef
                    end
        end.

(** [v.f = x] on a plain object: the own property is created or
    overwritten.  The one name that is not stored is [__proto__], an
    accessor that every plain object inherits from [Object.prototype]: its
    setter ignores a value that is neither an object nor null, and
    otherwise changes the prototype, which is no own property, so the own
    properties stay as they are either way.  (A computed name is assigned
    only by [fieldChangedHandler], and the value there is a string.)  The
    component is an ES module, hence strict code: assigning a property of a
    primitive throws. *)
Definition set_prop (v : jsval) (f : string) (x : jsval) : M unit :=
  λ st, match v with
        | VUndefined | VNull | VString _ => Throw TypeError
        | VRef l => match objs st !! l with
                    | Some o =>
                        if decide (f = "__proto__") then Ok (tt, st)
                        else
                          Ok (tt, State (<[l := <[f := x]> o]> (objs st))
                                        (arrs st) (calls st))
                    | None => Throw DanglingRef
                    end
        end.

(** [{...}]: a new object. *)
Definition new_object (o : obj) : M loc :=
  λ st, let l := fresh (dom (objs st)) in
        Ok (l, State (<[l := o]> (objs st)) (arrs st) (calls st)).

(** ** Arrays *)

(** Reading the elements of an array, as spreading or [filter] does. *)
Definition elements_of (a : loc) : M (list loc) :=
  λ st, match arrs st !! a with
        | Some elems => Ok (elems, st)
        | None => Throw DanglingRef
        end.

(** An array literal or the result of [filter]: a new array. *)
Definition new_array (elems : list loc) : M loc :=
  λ st, let a := fresh (dom (arrs st)) in
        Ok (a, State (objs st) (<[a := elems]> (arrs st)) (calls st)).

(** The prop [sourcesChanged], of type [any]: the parent's callback.  What
    the parent does with the array is outside the component; the call and
    its argument are recorded. *)
Definition sourcesChanged (newSources : loc) : M unit :=
  λ st, Ok (tt, State (objs st) (arrs st) (calls st ++ [newSources])).

(** The change event of a text input, as far as the handlers read it:
    [event.target.value]. *)
Record HTMLInputElement : Type := { value : string }.
Record ChangeEvent : Type := { target : HTMLInputElement }.

(** ** The [Source] model class *)

(** Modelled from the spec: the class [Source] of [models/source] (and with
    it [SearchParameters] and [Script]) is imported by the component but its
    declaration is not part of the sources at hand.  The spec describes a
    plain record with the string fields [filename], [searchType],
    [sourceName], [sourceIdentifier] and [comment], a nested
    [searchParameters.scope.path] string and one [loadConversionScript]
    value, and [new Source()] as a fresh, default-valued, empty source:
    every string is empty and every nested object is newly constructed. *)
Definition new_Source : M loc :=
  scope ← new_object {[ "path" := VString "" ]};
  searchParameters ← new_object {[ "scope" := VRef scope ]};
  loadConversionScript ← new_object ∅;
  new_object (<[ "filename" := VString "" ]>
             (<[ "searchType" := VString "" ]>
             (<[ "sourceName" := VString "" ]>
             (<[ "sourceIdentifier" := VString "" ]>
             (<[ "searchParameters" := VRef searchParameters ]>
             (<[ "loadConversionScript" := VRef loadConversionScript ]>
             (<[ "comment" := VString "" ]> ∅))))))).

(** ** The handlers *)

(** Every handler closes over the prop [sources], the first argument here. *)

Definition sourcesChangedHandler (sources : loc) : M unit :=
  elems ← elements_of sources;
  newSources ← new_array elems;
  sourcesChanged newSources.

(** [sources.filter((s) => s !== source)]: on object references [!==] is
    distinctness of the references. *)
Definition deleteSourceHandler (sources : loc) (source : loc) : M unit :=
  elems ← elements_of sources;
  newSources ← new_array (filter (λ s, s ≠ source) elems);
  sourcesChanged newSources.

Definition addSourceHandler (sources : loc) : M unit :=
  elems ← elements_of sources;
  s ← new_Source;
  newSources ← new_array (elems ++ [s]);
  sourcesChanged newSources.

Definition fieldChangedHandler (sources : loc)
    (fieldName : string) (source : loc) (event : ChangeEvent) : M unit :=
  let newValue := value (target event) in
  set_prop (VRef source) fieldName (VString newValue);;
  sourcesChangedHandler sources.

Definition searchParametersScopePathChangedHandler (sources : loc)
    (source : loc) (event : ChangeEvent) : M unit :=
  let newValue := value (target event) in
  searchParameters ← get_prop (VRef source) "searchParameters";
  scope ← get_prop searchParameters "scope";
  set_prop scope "path" (VString newValue);;
  sourcesChangedHandler sources.

(** The callback handed to the nested scripts editor.  [scripts[0]] of an
    empty array is [undefined]. *)
Definition scriptsChanged (sources : loc)
    (source : loc) (scripts : list jsval) : M unit :=
  set_prop (VRef source) "loadConversionScript"
           (default VUndefined (scripts !! 0%nat));;
  sourcesChangedHandler sources.

(** ** User actions *)

(** What the rendered panel wires to the handlers: the delete button of an
    item, its five text inputs, its scope path input, its scripts editor,
    and the Add button. *)
Inductive action : Type :=
| Add
| Delete (source : loc)
| FieldEdit (fieldName : string) (source : loc) (event : ChangeEvent)
| ScopePathEdit (source : loc) (event : ChangeEvent)
| ScriptsEdit (source : loc) (scripts : list jsval).

Definition handle (sources : loc) (act : action) : M unit :=
  match act with
  | Add => addSourceHandler sources
  | Delete source => deleteSourceHandler sources source
  | FieldEdit fieldName source event =>
      fieldChangedHandler sources fieldName source event
  | ScopePathEdit source event =>
      searchParametersScopePathChangedHandler sources source event
  | ScriptsEdit source scripts => scriptsChanged sources source scripts
  end.

(** The field names the panel passes to [fieldChangedHandler]. *)
Definition input_fields : list string :=
  ["filename"; "searchType"; "sourceName"; "sourceIdentifier"; "comment"].

(** ** Reading the store *)

(** [l.f] read from a store, [undefined] when there is nothing to read. *)
Definition field (h : gmap loc obj) (l : loc) (f : string) : jsval :=
  from_option (λ o, prop o f) VUndefined (h !! l).

(** The object a property refers to, when it refers to one. *)
Definition ref_prop (h : gmap loc obj) (l : loc) (f : string) : option loc :=
  match field h l f with
  | VRef l' => Some l'
  | _ => None
  end.

(** The object [source.searchParameters.scope], when the chain of
    references exists. *)
Definition scope_of (h : gmap loc obj) (source : loc) : option loc :=
  searchParameters ← ref_prop h source "searchParameters";
  scope ← ref_prop h searchParameters "scope";
  if decide (is_Some (h !! scope)) then Some scope else None.

(** [source.searchParameters.scope.path] as the panel displays it. *)
Definition scope_path (h : gmap loc obj) (source : loc) : jsval :=
  from_option (λ scope, field h scope "path") VUndefined (scope_of h source).

(** What the TypeScript type [Source] promises of an element of [sources]:
    it is an object with a [searchParameters] object with a [scope]
    object. *)
Definition is_Source (h : gmap loc obj) (source : loc) : bool :=
  bool_decide (is_Some (scope_of h source)).

(** The contents of a source as the panel shows them: the five text fields,
    the scope path and the script. *)
Definition Source_view (h : gmap loc obj) (source : loc) : list jsval :=
  (field h source <$> input_fields)
  ++ [scope_path h source; field h source "loadConversionScript"].

(** The record an action edits in place, if it edits one. *)
Definition edited (act : action) : option loc :=
  match act with
  | Add | Delete _ => None
  | FieldEdit _ source _ | ScopePathEdit source _ | ScriptsEdit source _ =>
      Some source
  end.

(** The elements of [sources] are what their type says. *)
Definition Sources_typed (st : state) (sources : loc) : bool :=
  match arrs st !! sources with
  | Some elems => forallb (is_Source (objs st)) elems
  | None => false
  end.

(** The panel of an item is rendered from an element of [sources], so the
    record an edit is about is one of them. *)
Definition rendered (st : state) (sources : loc) (act : action) : bool :=
  match edited act, arrs st !! sources with
  | Some source, Some elems => bool_decide (source ∈ elems)
  | Some _, None => false
  | None, _ => true
  end.

(** Every object of [h] is still there, unchanged, in [h']. *)
Definition extends (h h' : gmap loc obj) : Prop :=
  ∀ l, is_Some (h !! l) → h' !! l = h !! l.

(** ** The rendered view *)

(** What the component returns, as far as it depends on [sources]: one
    [ExpanderItem] per element and the Add button.  Labels and CSS classes,
    which are constants, are left out.  An event handler of the view is
    given as the action it stands for: [() => deleteSourceHandler(source)] is
    [Delete source], and [handle] runs it. *)
Record TextInput : Type := {
  input_id : string;
  input_value : jsval;
  onChange : ChangeEvent → action
}.

Record ScriptsEditor : Type := {
  packageType : string;
  isSingleScript : bool;
  scripts : list jsval;
  onScriptsChanged : list jsval → action
}.

Inductive Child : Type :=
| Input (input : TextInput)
| Scripts (editor : ScriptsEditor).

Record ExpanderItem : Type := {
  item_key : string;
  item_name : jsval;
  item_id : string;
  parentContainerId : string;
  show : bool;
  hasDelete : bool;
  onDelete : action;
  children : list Child
}.

Record View : Type := {
  expander_id : string;
  items : list ExpanderItem;
  onClick : action
}.

(** The callback of [sources.map], with the property reads in the order the
    JSX evaluates them.  [index.toString()] and the template literal print
    the index in decimal. *)
Definition render_item (index : nat) (source : loc) : M ExpanderItem :=
  name ← get_prop (VRef source) "filename";
  filename ← get_prop (VRef source) "filename";
  searchType ← get_prop (VRef source) "searchType";
  sourceName ← get_prop (VRef source) "sourceName";
  sourceIdentifier ← get_prop (VRef source) "sourceIdentifier";
  searchParameters ← get_prop (VRef source) "searchParameters";
  scope ← get_prop searchParameters "scope";
  path ← get_prop scope "path";
  loadConversionScript ← get_prop (VRef source) "loadConversionScript";
  comment ← get_prop (VRef source) "comment";
  mret {|
    item_key := pretty index;
    item_name := name;
    item_id := "source" +:+ pretty (index + 1)%nat;
    parentContainerId := "sourcesExpander";
    show := false;
    hasDelete := true;
    onDelete := Delete source;
    children := [
      Input {| input_id := "filename"; input_value := filename;
               onChange := λ event, FieldEdit "filename" source event |};
      Input {| input_id := "searchType"; input_value := searchType;
               onChange := λ event, FieldEdit "searchType" source event |};
      Input {| input_id := "sourceName"; input_value := sourceName;
               onChange := λ event, FieldEdit "sourceName" source event |};
      Input {| input_id := "sourceIdentifier";
               input_value := sourceIdentifier;
               onChange :=
                 λ event, FieldEdit "sourceIdentifier" source event |};
      Input {| input_id := "searchParametersScopePath"; input_value := path;
               onChange := λ event, ScopePathEdit source event |};
      Scripts {| packageType := "load_conversion"; isSingleScript := true;
                 scripts := [loadConversionScript];
                 onScriptsChanged := λ scripts, ScriptsEdit source scripts |};
      Input {| input_id := "comment"; input_value := comment;
               onChange := λ event, FieldEdit "comment" source event |}
    ]
  |}.

(** [sources.map((source, index) => ...)], from [index] on. *)
Fixpoint render_items (index : nat) (elems : list loc)
    : M (list ExpanderItem) :=
  match elems with
  | [] => mret []
  | source :: rest =>
      item ← render_item index source;
      more ← render_items (S index) rest;
      mret (item :: more)
  end.

Definition render (sources : loc) : M View :=
  elems ← elements_of sources;
  items ← render_items 0 elems;
  mret {| expander_id := "sourcesExpander"; items := items; onClick := Add |}.

(** *** Reading a view *)

(** The text inputs of a panel. *)
Definition inputs (item : ExpanderItem) : list TextInput :=
  omap (λ c, match c with Input i => Some i | Scripts _ => None end)
       (children item).

(** The scripts editors of a panel. *)
Definition editors (item : ExpanderItem) : list ScriptsEditor :=
  omap (λ c, match c with Scripts e => Some e | Input _ => None end)
       (children item).

(** What the input [id] of the panel at place [i] shows. *)
Definition input_shows (view : View) (i : nat) (id : string) : option jsval :=
  item ← items view !! i;
  input ← head (filter (λ input, input_id input = id) (inputs item));
  Some (input_value input).

(** The actions the user can start from a panel: its delete button, its
    text inputs typing [event], its scripts editor reporting [reported]. *)
Definition item_actions (event : ChangeEvent) (reported : list jsval)
    (item : ExpanderItem) : list action :=
  onDelete item
  :: ((λ c, match c with
            | Input i => onChange i event
            | Scripts e => onScriptsChanged e reported
            end) <$> children item).

(** The actions the user can start from a view. *)
Definition view_actions (event : ChangeEvent) (reported : list jsval)
    (view : View) : list action :=
  onClick view :: (items view ≫= item_actions event reported).

(** The panel of [source] at place [index], from pure reads of the store. *)
Definition panel (h : gmap loc obj) (index : nat) (source : loc)
    : ExpanderItem :=
  {|
    item_key := pretty index;
    item_name := field h source "filename";
    item_id := "source" +:+ pretty (index + 1)%nat;
    parentContainerId := "sourcesExpander";
    show := false;
    hasDelete := true;
    onDelete := Delete source;
    children := [
      Input {| input_id := "filename";
               input_value := field h source "filename";
               onChange := λ event, FieldEdit "filename" source event |};
      Input {| input_id := "searchType";
               input_value := field h source "searchType";
               onChange := λ event, FieldEdit "searchType" source event |};
      Input {| input_id := "sourceName";
               input_value := field h source "sourceName";
               onChange := λ event, FieldEdit "sourceName" source event |};
      Input {| input_id := "sourceIdentifier";
               input_value := field h source "sourceIdentifier";
               onChange :=
                 λ event, FieldEdit "sourceIdentifier" source event |};
      Input {| input_id := "searchParametersScopePath";
               input_value := scope_path h source;
               onChange := λ event, ScopePathEdit source event |};
      Scripts {| packageType := "load_conversion"; isSingleScript := true;
                 scripts := [field h source "loadConversionScript"];
                 onScriptsChanged := λ scripts, ScriptsEdit source scripts |};
      Input {| input_id := "comment";
               input_value := field h source "comment";
               onChange := λ event, FieldEdit "comment" source event |}
    ]
  |}.

(** What the input [id] of the panel of [source] shows, from pure reads. *)
Definition shown (h : gmap loc obj) (source : loc) (id : string)
    : option jsval :=
  if decide (id = "filename") then Some (field h source "filename")
  else if decide (id = "searchType") then Some (field h source "searchType")
  else if decide (id = "sourceName") then Some (field h source "sourceName")
  else if decide (id = "sourceIdentifier")
       then Some (field h source "sourceIdentifier")
  else if decide (id = "searchParametersScopePath")
       then Some (scope_path h source)
  else if decide (id = "comment") then Some (field h source "comment")
  else None.

(** ** Example stores *)

Definition ev (s : string) : ChangeEvent := {| target := {| value := s |} |}.

(** A source object whose [searchParameters] is the object [sp]. *)
Definition sample_source (name : string) (sp : loc) : obj :=
  <[ "filename" := VString name ]>
  (<[ "searchParameters" := VRef sp ]>
  (<[ "comment" := VString "" ]> ∅)).

Definition sample_objs : gmap loc obj :=
  <[ 1%positive := sample_source "a.bib" 2 ]>
  (<[ 2%positive := {[ "scope" := VRef 3%positive ]} ]>
  (<[ 3%positive := {[ "path" := VString "data" ]} ]>
  (<[ 4%positive := sample_source "a.bib" 5 ]>
  (<[ 5%positive := {[ "scope" := VRef 6%positive ]} ]>
  (<[ 6%positive := {[ "path" := VString "data" ]} ]>
  (<[ 7%positive := sample_source "c.bib" 8 ]>
  (<[ 8%positive := {[ "scope" := VRef 9%positive ]} ]>
  (<[ 9%positive := {[ "path" := VString "" ]} ]> ∅)))))))).

(** Three sources, the objects 1, 4 and 7, in the array 10; the first two
    show the same values in every field. *)
Definition sample : state :=
  State sample_objs {[ 10%positive := [1%positive; 4%positive; 7%positive] ]} [].

(** A store the type [Source[]] rules out: the one element of the array has
    no [searchParameters]. *)
Definition untyped_sample : state :=
  State {[ 1%positive := {[ "filename" := VString "a.bib" ]} ]}
        {[ 10%positive := [1%positive] ]} [].

(** The view of [sample]. *)
Definition sample_view : View :=
  {| expander_id := "sourcesExpander";
     items := imap (panel sample_objs) [1%positive; 4%positive; 7%positive];
     onClick := Add |}.

(** Membership in a list written out. *)
Ltac list_mem :=
  lazymatch goal with
  | |- _ ∉ _ =>
      rewrite ?not_elem_of_cons; repeat split;
      first [discriminate | apply not_elem_of_nil]
  | |- _ ∈ _ =>
      rewrite ?elem_of_cons; auto 10
  end.

(** ** The callback *)

(** Between [st] and [st'] the callback was called once more, with the array
    [newSources], which did not exist in [st] and holds [elems]; no other
    array changed. *)
Definition called_back (st st' : state) (newSources : loc) (elems : list loc)
    : Prop :=
  calls st' = calls st ++ [newSources]
  ∧ arrs st !! newSources = None
  ∧ arrs st' !! newSources = Some elems
  ∧ ∀ a, a ≠ newSources → arrs st' !! a = arrs st !! a.

Lemma fresh_array (m : gmap loc (list loc)) : m !! fresh (dom m) = None.
Proof. apply not_elem_of_dom, is_fresh. Qed.

Lemma fresh_object (h : gmap loc obj) : h !! fresh (dom h) = None.
Proof. apply not_elem_of_dom, is_fresh. Qed.

Lemma called_back_alloc h m c elems :
  called_back (State h m c)
    (State h (<[fresh (dom m) := elems]> m) (c ++ [fresh (dom m)]))
    (fresh (dom m)) elems.
Proof.
  repeat split; simpl.
  - apply fresh_array.
  - apply lookup_insert_eq.
  - intros a Ha. by apply lookup_insert_ne.
Qed.

Lemma called_back_ne st st' newSources elems sources :
  is_Some (arrs st !! sources) →
  called_back st st' newSources elems → newSources ≠ sources.
Proof. intros [x Hx] (_ & Hnew & _) ->. congruence. Qed.

(** ** [sourcesChangedHandler] *)

Lemma sourcesChangedHandler_run st sources elems :
  arrs st !! sources = Some elems →
  sourcesChangedHandler sources st =
    Ok (tt, State (objs st) (<[fresh (dom (arrs st)) := elems]> (arrs st))
                  (calls st ++ [fresh (dom (arrs st))])).
Proof.
  intros H. unfold sourcesChangedHandler, elements_of, mbind, M_bind.
  by rewrite H.
Qed.

(** ** Delete *)

Lemma deleteSourceHandler_run st sources elems source :
  arrs st !! sources = Some elems →
  deleteSourceHandler sources source st =
    Ok (tt, State (objs st)
                  (<[fresh (dom (arrs st)) := filter (λ s, s ≠ source) elems]>
                     (arrs st))
                  (calls st ++ [fresh (dom (arrs st))])).
Proof.
  intros H. unfold deleteSourceHandler, elements_of, mbind, M_bind.
  by rewrite H.
Qed.

Lemma filter_ne_absent (source : loc) (l : list loc) :
  source ∉ l → filter (λ s, s ≠ source) l = l.
Proof.
  induction l as [|x l IH]; intros Hnotin; [done|].
  apply not_elem_of_cons in Hnotin as [Hx Hl].
  rewrite filter_cons_True by congruence. by rewrite IH.
Qed.

Lemma filter_ne_once (source : loc) (before after : list loc) :
  source ∉ before → source ∉ after →
  filter (λ s, s ≠ source) (before ++ source :: after) = before ++ after.
Proof.
  intros Hb Ha. rewrite filter_app, filter_cons_False by naive_solver.
  by rewrite !filter_ne_absent.
Qed.

(** C1.  Deleting a source calls the callback with an array that has lost
    the targeted record and nothing else: the kept records are exactly the
    records of [sources] other than the target, in their original order
    (the new array is a subsequence of the old one), and where the target
    stands at one place of the list the new array is the list with that
    place cut out. *)
Theorem deleteSourceHandler_removes_target st sources elems source :
  arrs st !! sources = Some elems →
  ∃ st' newSources kept,
    deleteSourceHandler sources source st = Ok (tt, st')
    ∧ called_back st st' newSources kept
    ∧ objs st' = objs st
    ∧ (source ∉ kept)
    ∧ (∀ s, s ≠ source → s ∈ elems → s ∈ kept)
    ∧ kept `sublist_of` elems
    ∧ (∀ before after, elems = before ++ source :: after →
         source ∉ before → source ∉ after → kept = before ++ after).
Proof.
  intros Hsrc. eexists _, _, _.
  split; [by apply deleteSourceHandler_run|].
  split; [apply called_back_alloc|]. simpl.
  split; [done|].
  split; [by intros [Hne _]%list_elem_of_filter|].
  split; [intros s ? ?; by apply list_elem_of_filter|].
  split; [apply sublist_filter|].
  intros before after -> ? ?. by apply filter_ne_once.
Qed.

Lemma deleteSourceHandler_removes_target_witness :
  arrs sample !! 10%positive = Some [1%positive; 4%positive; 7%positive]
  ∧ ∃ st' newSources kept,
      deleteSourceHandler 10 4 sample = Ok (tt, st')
      ∧ called_back sample st' newSources kept
      ∧ objs st' = objs sample
      ∧ (4%positive ∉ kept)
      ∧ (∀ s, s ≠ 4%positive → s ∈ [1%positive; 4%positive; 7%positive] →
           s ∈ kept)
      ∧ kept `sublist_of` [1%positive; 4%positive; 7%positive]
      ∧ (∀ before after,
           [1%positive; 4%positive; 7%positive] = before ++ 4%positive :: after →
           4%positive ∉ before → 4%positive ∉ after → kept = before ++ after).
Proof.
  split; [reflexivity|].
  apply (deleteSourceHandler_removes_target sample 10 [1; 4; 7] 4)%positive.
  reflexivity.
Defined.

(** C9.  Deleting a target that is not in the list still calls the callback
    once, with a new array that holds the original elements in the original
    order. *)
Theorem deleteSourceHandler_absent_target st sources elems source :
  arrs st !! sources = Some elems →
  source ∉ elems →
  ∃ st' newSources,
    deleteSourceHandler sources source st = Ok (tt, st')
    ∧ called_back st st' newSources elems
    ∧ newSources ≠ sources
    ∧ length (calls st') = S (length (calls st)).
Proof.
  intros Hsrc Hnotin. eexists _, _.
  split; [by apply deleteSourceHandler_run|].
  rewrite filter_ne_absent by done.
  split; [apply called_back_alloc|].
  split.
  - intros Heq. pose proof (fresh_array (arrs st)) as Hf.
    rewrite Heq in Hf. congruence.
  - simpl. rewrite length_app. simpl. lia.
Qed.

Lemma deleteSourceHandler_absent_target_witness :
  arrs sample !! 10%positive = Some [1%positive; 4%positive; 7%positive]
  ∧ (9%positive ∉ [1%positive; 4%positive; 7%positive])
  ∧ ∃ st' newSources,
      deleteSourceHandler 10 9 sample = Ok (tt, st')
      ∧ called_back sample st' newSources [1%positive; 4%positive; 7%positive]
      ∧ newSources ≠ 10%positive
      ∧ length (calls st') = S (length (calls sample)).
Proof.
  assert (Hnotin : 9%positive ∉ [1%positive; 4%positive; 7%positive])
    by list_mem.
  split; [reflexivity|]. split; [exact Hnotin|].
  apply (deleteSourceHandler_absent_target sample 10 [1; 4; 7] 9)%positive;
    [reflexivity | exact Hnotin].
Defined.

(** C5.  Deletion compares references, not contents: a record of the list
    that is a different object than the target stays in the array passed to
    the callback, also when its fields are equal to the target's one by
    one. *)
Theorem deleteSourceHandler_by_reference st sources elems source other :
  arrs st !! sources = Some elems →
  other ∈ elems →
  other ≠ source →
  Source_view (objs st) other = Source_view (objs st) source →
  ∃ st' newSources kept,
    deleteSourceHandler sources source st = Ok (tt, st')
    ∧ called_back st st' newSources kept
    ∧ other ∈ kept
    ∧ (source ∉ kept).
Proof.
  intros Hsrc Hin Hne _. eexists _, _, _.
  split; [by apply deleteSourceHandler_run|].
  split; [apply called_back_alloc|].
  rewrite !list_elem_of_filter. split; [done | by intros [? _]].
Qed.

Lemma deleteSourceHandler_by_reference_witness :
  arrs sample !! 10%positive = Some [1%positive; 4%positive; 7%positive]
  ∧ 4%positive ∈ [1%positive; 4%positive; 7%positive]
  ∧ 4%positive ≠ 1%positive
  ∧ Source_view (objs sample) 4 = Source_view (objs sample) 1
  ∧ ∃ st' newSources kept,
      deleteSourceHandler 10 1 sample = Ok (tt, st')
      ∧ called_back sample st' newSources kept
      ∧ 4%positive ∈ kept
      ∧ (1%positive ∉ kept).
Proof.
  assert (Hin : 4%positive ∈ [1%positive; 4%positive; 7%positive])
    by list_mem.
  assert (Heq : Source_view (objs sample) 4 = Source_view (objs sample) 1)
    by (vm_compute; reflexivity).
  split; [reflexivity|]. split; [exact Hin|]. split; [discriminate|].
  split; [exact Heq|].
  apply (deleteSourceHandler_by_reference sample 10 [1; 4; 7] 1 4)%positive;
    [reflexivity | exact Hin | discriminate | exact Heq].
Defined.

(** ** Assigning a property, then notifying *)

Lemma field_insert_eq (h : gmap loc obj) l (o : obj) f x :
  field (<[l := <[f := x]> o]> h) l f = x.
Proof.
  unfold field, prop. rewrite lookup_insert_eq. simpl.
  by rewrite lookup_insert_eq.
Qed.

Lemma field_insert_ne_prop (h : gmap loc obj) l (o : obj) f f' x :
  h !! l = Some o → f' ≠ f →
  field (<[l := <[f := x]> o]> h) l f' = field h l f'.
Proof.
  intros Hl Hf. unfold field, prop.
  rewrite lookup_insert_eq, Hl. simpl. by rewrite lookup_insert_ne.
Qed.

Lemma field_insert_ne_loc (h : gmap loc obj) l l' (o : obj) f :
  l' ≠ l → field (<[l := o]> h) l' f = field h l' f.
Proof. intros Hl. unfold field. by rewrite lookup_insert_ne. Qed.

Lemma set_then_changed st sources elems source o f x :
  arrs st !! sources = Some elems →
  objs st !! source = Some o →
  f ≠ "__proto__" →
  (set_prop (VRef source) f x;; sourcesChangedHandler sources) st =
    Ok (tt, State (<[source := <[f := x]> o]> (objs st))
                  (<[fresh (dom (arrs st)) := elems]> (arrs st))
                  (calls st ++ [fresh (dom (arrs st))])).
Proof.
  intros Hsrc Hobj Hf. unfold mbind, M_bind, set_prop.
  rewrite Hobj, decide_False by done.
  by rewrite (sourcesChangedHandler_run _ sources elems).
Qed.

(** Assigning [__proto__] writes nothing; the callback is called all the
    same. *)
Lemma set_proto_then_changed st sources elems source x :
  arrs st !! sources = Some elems →
  is_Some (objs st !! source) →
  (set_prop (VRef source) "__proto__" x;; sourcesChangedHandler sources) st =
    Ok (tt, State (objs st)
                  (<[fresh (dom (arrs st)) := elems]> (arrs st))
                  (calls st ++ [fresh (dom (arrs st))])).
Proof.
  intros Hsrc [o Hobj]. unfold mbind, M_bind, set_prop.
  rewrite Hobj, decide_True by done.
  by rewrite (sourcesChangedHandler_run _ sources elems).
Qed.

(** What assigning [source.f = x] and notifying leaves behind. *)
Lemma set_then_changed_frame st sources elems source f x :
  arrs st !! sources = Some elems →
  is_Some (objs st !! source) →
  f ≠ "__proto__" →
  ∃ st' newSources,
    (set_prop (VRef source) f x;; sourcesChangedHandler sources) st
      = Ok (tt, st')
    ∧ field (objs st') source f = x
    ∧ (∀ f', f' ≠ f → field (objs st') source f' = field (objs st) source f')
    ∧ (∀ l, l ≠ source → objs st' !! l = objs st !! l)
    ∧ is_Some (objs st' !! source)
    ∧ called_back st st' newSources elems
    ∧ newSources ≠ sources.
Proof.
  intros Hsrc [o Hobj] Hordinary. eexists _, _.
  split; [by apply (set_then_changed _ _ elems _ o)|]. simpl.
  split; [apply field_insert_eq|].
  split; [intros f' Hf'; by apply field_insert_ne_prop|].
  split; [intros l Hl; by apply lookup_insert_ne|].
  split; [rewrite lookup_insert_eq; eauto|].
  split; [apply called_back_alloc|].
  intros Heq. pose proof (fresh_array (arrs st)) as Hf.
  rewrite Heq in Hf. congruence.
Qed.




(** C10.  When the scripts editor reports a list, the record's
    [loadConversionScript] becomes the first element of the list, or
    [undefined] when the list is empty; no other field and no other object
    changes, and the callback is called once, with a new array holding the
    same references. *)
Theorem scriptsChanged_first st sources elems source scripts :
  arrs st !! sources = Some elems →
  is_Some (objs st !! source) →
  ∃ st' newSources,
    scriptsChanged sources source scripts st = Ok (tt, st')
    ∧ field (objs st') source "loadConversionScript"
        = match scripts with
          | [] => VUndefined
          | first :: _ => first
          end
    ∧ (∀ f, f ≠ "loadConversionScript" →
         field (objs st') source f = field (objs st) source f)
    ∧ (∀ l, l ≠ source → objs st' !! l = objs st !! l)
    ∧ called_back st st' newSources elems
    ∧ length (calls st') = S (length (calls st)).
Proof.
  intros Hsrc Hobj. unfold scriptsChanged.
  destruct (set_then_changed_frame st sources elems source
              "loadConversionScript" (default VUndefined (scripts !! 0%nat))
              Hsrc Hobj ltac:(done))
    as (st' & newSources & Hrun & Hset & Hframe & Hother & _ & Hcb & _).
  exists st', newSources.
  split; [done|].
  split; [rewrite Hset; by destruct scripts|].
  split; [done|]. split; [done|]. split; [done|].
  destruct Hcb as [-> _]. rewrite length_app. simpl. lia.
Qed.

Lemma scriptsChanged_first_witness :
  arrs sample !! 10%positive = Some [1%positive; 4%positive; 7%positive]
  ∧ is_Some (objs sample !! 7%positive)
  ∧ ∃ st' newSources,
      scriptsChanged 10 7 [] sample = Ok (tt, st')
      ∧ field (objs st') 7 "loadConversionScript" = VUndefined
      ∧ (∀ f, f ≠ "loadConversionScript" →
           field (objs st') 7 f = field (objs sample) 7 f)
      ∧ (∀ l, l ≠ 7%positive → objs st' !! l = objs sample !! l)
      ∧ called_back sample st' newSources [1%positive; 4%positive; 7%positive]
      ∧ length (calls st') = S (length (calls sample)).
Proof.
  assert (Hobj : is_Some (objs sample !! 7%positive))
    by (vm_compute; eauto).
  split; [reflexivity|]. split; [exact Hobj|].
  apply (scriptsChanged_first sample 10 [1; 4; 7] 7 [])%positive;
    [reflexivity | exact Hobj].
Defined.

(** ** The nested scope path *)

Lemma ref_prop_Some h l f l' :
  ref_prop h l f = Some l' ↔ field h l f = VRef l'.
Proof.
  unfold ref_prop. destruct (field h l f); split; intros; by simplify_eq.
Qed.

Lemma field_VRef_alloc h l f l' :
  field h l f = VRef l' → ∃ o, h !! l = Some o ∧ prop o f = VRef l'.
Proof.
  unfold field. destruct (h !! l) as [o|]; simpl; [eauto | discriminate].
Qed.

(** The chain of references behind [scope_of]. *)
Lemma scope_of_Some h source scope :
  scope_of h source = Some scope ↔
  ∃ searchParameters,
    field h source "searchParameters" = VRef searchParameters
    ∧ field h searchParameters "scope" = VRef scope
    ∧ is_Some (h !! scope).
Proof.
  unfold scope_of. split.
  - intros H.
    destruct (ref_prop h source "searchParameters") as [sp|] eqn:Hsp;
      simpl in H; [|discriminate].
    destruct (ref_prop h sp "scope") as [sc|] eqn:Hsc;
      simpl in H; [|discriminate].
    case_decide; simplify_eq.
    exists sp. by rewrite <- !ref_prop_Some.
  - intros (sp & Hsp & Hsc & Halloc).
    apply ref_prop_Some in Hsp, Hsc. rewrite Hsp. simpl. rewrite Hsc. simpl.
    by rewrite decide_True.
Qed.

Lemma searchParametersScopePathChangedHandler_run
    st sources elems source event searchParameters scope o :
  arrs st !! sources = Some elems →
  field (objs st) source "searchParameters" = VRef searchParameters →
  field (objs st) searchParameters "scope" = VRef scope →
  objs st !! scope = Some o →
  searchParametersScopePathChangedHandler sources source event st =
    Ok (tt, State (<[scope := <["path" := VString (value (target event))]> o]>
                     (objs st))
                  (<[fresh (dom (arrs st)) := elems]> (arrs st))
                  (calls st ++ [fresh (dom (arrs st))])).
Proof.
  intros Hsrc Hsp Hsc Ho.
  apply field_VRef_alloc in Hsp as (osource & Hosource & Hsp).
  apply field_VRef_alloc in Hsc as (osp & Hosp & Hsc).
  unfold searchParametersScopePathChangedHandler.
  unfold mbind at 1 2, M_bind, get_prop.
  rewrite Hosource, Hsp, Hosp, Hsc.
  by apply set_then_changed.
Qed.

(** Overwriting one property is invisible to every other property read. *)
Lemma field_set_other (h : gmap loc obj) l0 (o : obj) f0 x l f :
  h !! l0 = Some o →
  (l, f) ≠ (l0, f0) →
  field (<[l0 := <[f0 := x]> o]> h) l f = field h l f.
Proof.
  intros Ho Hne. destruct (decide (l = l0)) as [->|Hl].
  - apply field_insert_ne_prop; [done | congruence].
  - by apply field_insert_ne_loc.
Qed.

(** Overwriting a property other than [searchParameters] and [scope] keeps
    every chain [source.searchParameters.scope] in place. *)
Lemma scope_of_set_field (h : gmap loc obj) l0 (o : obj) f0 x source :
  h !! l0 = Some o →
  f0 ≠ "searchParameters" → f0 ≠ "scope" →
  scope_of (<[l0 := <[f0 := x]> o]> h) source = scope_of h source.
Proof.
  intros Ho Hsp Hsc. unfold scope_of, ref_prop.
  rewrite (field_set_other h l0 o f0 x source "searchParameters")
    by (done || congruence).
  destruct (field h source "searchParameters") as [| | |sp]; try done. simpl.
  rewrite (field_set_other h l0 o f0 x sp "scope") by (done || congruence).
  destruct (field h sp "scope") as [| | |sc]; try done. simpl.
  apply decide_ext. destruct (decide (sc = l0)) as [->|Hne].
  - rewrite lookup_insert_eq, Ho. split; eauto.
  - by rewrite lookup_insert_ne.
Qed.

(** C6.  Editing the scope path of a record overwrites the [path] property
    of the object [source.searchParameters.scope] with the raw input string
    and changes nothing else: every other property of every object,
    the record's own and nested ones included, reads as before, so every
    other record, having a scope object of its own, shows the path it showed
    before.  The callback is then called with a new array holding the same
    references. *)
Theorem searchParametersScopePathChangedHandler_frame
    st sources elems source event :
  arrs st !! sources = Some elems →
  is_Source (objs st) source = true →
  ∃ st' newSources scope,
    searchParametersScopePathChangedHandler sources source event st
      = Ok (tt, st')
    ∧ scope_of (objs st) source = Some scope
    ∧ scope_of (objs st') source = Some scope
    ∧ scope_path (objs st') source = VString (value (target event))
    ∧ (∀ l f, (l, f) ≠ (scope, "path") →
         field (objs st') l f = field (objs st) l f)
    ∧ (∀ l, l ≠ scope → objs st' !! l = objs st !! l)
    ∧ (∀ other, scope_of (objs st) other ≠ Some scope →
         scope_of (objs st') other = scope_of (objs st) other
         ∧ scope_path (objs st') other = scope_path (objs st) other)
    ∧ called_back st st' newSources elems.
Proof.
  intros Hsrc Htyped.
  apply bool_decide_eq_true in Htyped as [scope Hscope].
  pose proof Hscope as (sp & Hsp & Hsc & [o Ho])%scope_of_Some.
  eexists _, _, scope.
  split; [by eapply searchParametersScopePathChangedHandler_run|]. simpl.
  assert (Hsame : ∀ l,
    scope_of (<[scope := <["path" := VString (value (target event))]> o]>
                (objs st)) l = scope_of (objs st) l)
    by (intros l; by apply scope_of_set_field).
  split; [done|].
  split; [by rewrite Hsame|].
  split; [unfold scope_path; rewrite Hsame, Hscope; apply field_insert_eq|].
  split; [intros l f Hne; by apply field_set_other|].
  split; [intros l Hne; by apply lookup_insert_ne|].
  split; [|apply called_back_alloc].
  intros other Hother. split; [apply Hsame|].
  unfold scope_path. rewrite Hsame.
  destruct (scope_of (objs st) other) as [sc|]; [|done]. simpl.
  apply field_insert_ne_loc. congruence.
Qed.

Lemma searchParametersScopePathChangedHandler_frame_witness :
  arrs sample !! 10%positive = Some [1%positive; 4%positive; 7%positive]
  ∧ is_Source (objs sample) 4 = true
  ∧ ∃ st' newSources scope,
      searchParametersScopePathChangedHandler 10 4 (ev "data/search") sample
        = Ok (tt, st')
      ∧ scope_of (objs sample) 4 = Some scope
      ∧ scope_of (objs st') 4 = Some scope
      ∧ scope_path (objs st') 4 = VString "data/search"
      ∧ (∀ l f, (l, f) ≠ (scope, "path") →
           field (objs st') l f = field (objs sample) l f)
      ∧ (∀ l, l ≠ scope → objs st' !! l = objs sample !! l)
      ∧ (∀ other, scope_of (objs sample) other ≠ Some scope →
           scope_of (objs st') other = scope_of (objs sample) other
           ∧ scope_path (objs st') other = scope_path (objs sample) other)
      ∧ called_back sample st' newSources [1%positive; 4%positive; 7%positive].
Proof.
  split; [reflexivity|]. split; [vm_compute; reflexivity|].
  apply (searchParametersScopePathChangedHandler_frame sample 10 [1; 4; 7] 4
           (ev "data/search"))%positive; [reflexivity | vm_compute; reflexivity].
Defined.

(** ** Add *)

Lemma extends_refl h : extends h h.
Proof. by intros l _. Qed.

Lemma extends_trans h1 h2 h3 : extends h1 h2 → extends h2 h3 → extends h1 h3.
Proof.
  intros H12 H23 l Hl. rewrite H23 by (by rewrite H12). by apply H12.
Qed.

Lemma extends_alloc (h : gmap loc obj) (o : obj) :
  extends h (<[fresh (dom h) := o]> h).
Proof.
  intros l [x Hl]. apply lookup_insert_ne. intros <-.
  pose proof (fresh_object h). congruence.
Qed.

Lemma new_object_run o st :
  new_object o st =
    Ok (fresh (dom (objs st)),
        State (<[fresh (dom (objs st)) := o]> (objs st)) (arrs st) (calls st)).
Proof. done. Qed.

(** [new Source()] never fails, builds its objects at new places, leaves the
    arrays, the existing objects and the callback alone, and returns a
    well-formed source whose strings are all empty. *)
Lemma new_Source_spec st :
  ∃ s h',
    new_Source st = Ok (s, State h' (arrs st) (calls st))
    ∧ objs st !! s = None
    ∧ extends (objs st) h'
    ∧ Forall (λ f, field h' s f = VString "") input_fields
    ∧ scope_path h' s = VString ""
    ∧ is_Source h' s = true.
Proof.
  destruct st as [h m c]. unfold new_Source, mbind, M_bind.
  rewrite !new_object_run. simpl.
  set (l1 := fresh (dom h)).
  set (h1 := <[l1 := {[ "path" := VString "" ]}]> h).
  set (l2 := fresh (dom h1)).
  set (h2 := <[l2 := {[ "scope" := VRef l1 ]}]> h1).
  set (l3 := fresh (dom h2)).
  set (h3 := <[l3 := ∅]> h2).
  set (l4 := fresh (dom h3)).
  assert (E1 : extends h h1) by apply extends_alloc.
  assert (E2 : extends h1 h2) by apply extends_alloc.
  assert (E3 : extends h2 h3) by apply extends_alloc.
  assert (H11 : h1 !! l1 = Some {[ "path" := VString "" ]})
    by apply lookup_insert_eq.
  assert (H22 : h2 !! l2 = Some {[ "scope" := VRef l1 ]})
    by apply lookup_insert_eq.
  assert (H31 : h3 !! l1 = Some {[ "path" := VString "" ]})
    by (rewrite E3, E2 by (rewrite ?E2; eauto); done).
  assert (H32 : h3 !! l2 = Some {[ "scope" := VRef l1 ]})
    by (rewrite E3 by eauto; done).
  assert (F4 : h3 !! l4 = None) by apply fresh_object.
  assert (N41 : l1 ≠ l4) by congruence.
  assert (N42 : l2 ≠ l4) by congruence.
  eexists _, _. split; [reflexivity|].
  split.
  { destruct (h !! l4) as [x|] eqn:Hl4; [|done].
    assert (h3 !! l4 = Some x); [|congruence].
    rewrite <- Hl4. apply (extends_trans h h2 h3); [|done|eauto].
    by apply (extends_trans h h1 h2). }
  split.
  { eapply extends_trans; [|apply extends_alloc].
    eapply extends_trans; [|exact E3]. by eapply extends_trans. }
  assert (Hsp : ∀ o : obj,
    field (<[l4 := o]> h3) l2 "scope" = VRef l1).
  { intros o. rewrite field_insert_ne_loc by done.
    unfold field. by rewrite H32. }
  assert (Hpath : ∀ o : obj,
    field (<[l4 := o]> h3) l1 "path" = VString "").
  { intros o. rewrite field_insert_ne_loc by done.
    unfold field. by rewrite H31. }
  assert (Hscope : ∀ o : obj,
    prop o "searchParameters" = VRef l2 →
    scope_of (<[l4 := o]> h3) l4 = Some l1).
  { intros o Ho. apply scope_of_Some. exists l2.
    split; [unfold field; by rewrite lookup_insert_eq|].
    split; [apply Hsp|].
    rewrite lookup_insert_ne by done. eauto. }
  split.
  { unfold input_fields, field. rewrite lookup_insert_eq. simpl.
    repeat constructor. }
  split.
  { unfold scope_path. rewrite Hscope by done. apply Hpath. }
  apply bool_decide_eq_true. rewrite Hscope by done. eauto.
Qed.

Lemma addSourceHandler_run st sources elems s h' :
  arrs st !! sources = Some elems →
  new_Source st = Ok (s, State h' (arrs st) (calls st)) →
  addSourceHandler sources st =
    Ok (tt, State h' (<[fresh (dom (arrs st)) := elems ++ [s]]> (arrs st))
                  (calls st ++ [fresh (dom (arrs st))])).
Proof.
  intros Hsrc Hrun. unfold addSourceHandler, elements_of.
  unfold mbind at 1, M_bind at 1. rewrite Hsrc.
  unfold mbind at 1, M_bind at 1. by rewrite Hrun.
Qed.

(** C3.  Adding calls the callback with an array that holds the prior
    elements, the same references in the same order, followed by one more
    element: a source constructed by this very call, with default values.
    No existing object is touched. *)
Theorem addSourceHandler_appends st sources elems :
  arrs st !! sources = Some elems →
  ∃ st' newSources s,
    addSourceHandler sources st = Ok (tt, st')
    ∧ called_back st st' newSources (elems ++ [s])
    ∧ objs st !! s = None
    ∧ (∀ l, is_Some (objs st !! l) → objs st' !! l = objs st !! l)
    ∧ Forall (λ f, field (objs st') s f = VString "") input_fields
    ∧ scope_path (objs st') s = VString ""
    ∧ is_Source (objs st') s = true.
Proof.
  intros Hsrc.
  destruct (new_Source_spec st)
    as (s & h' & Hrun & Hnew & Hext & Hfields & Hpath & Htyped).
  eexists _, _, s.
  split; [by apply (addSourceHandler_run st sources elems s h')|].
  simpl. split; [apply (called_back_alloc h' (arrs st) (calls st))|].
  eauto.
Qed.

Lemma addSourceHandler_appends_witness :
  arrs sample !! 10%positive = Some [1%positive; 4%positive; 7%positive]
  ∧ ∃ st' newSources s,
      addSourceHandler 10 sample = Ok (tt, st')
      ∧ called_back sample st' newSources
          ([1%positive; 4%positive; 7%positive] ++ [s])
      ∧ objs sample !! s = None
      ∧ (∀ l, is_Some (objs sample !! l) → objs st' !! l = objs sample !! l)
      ∧ Forall (λ f, field (objs st') s f = VString "") input_fields
      ∧ scope_path (objs st') s = VString ""
      ∧ is_Source (objs st') s = true.
Proof.
  split; [reflexivity|].
  apply (addSourceHandler_appends sample 10 [1; 4; 7])%positive. reflexivity.
Defined.

(** ** Every action *)

Lemma is_Source_alloc h source :
  is_Source h source = true → is_Some (h !! source).
Proof.
  intros [scope (sp & Hsp & _)%scope_of_Some]%bool_decide_eq_true.
  apply field_VRef_alloc in Hsp as (o & Ho & _). eauto.
Qed.

Lemma called_back_length st st' newSources elems :
  called_back st st' newSources elems →
  length (calls st') = S (length (calls st)).
Proof. intros [-> _]. rewrite length_app. simpl. lia. Qed.

(** Every action on a record that is a well-formed source runs to the end
    and calls the callback; the array it passes holds the references of
    [sources] when the action is an edit. *)
Lemma handle_run st sources elems act :
  arrs st !! sources = Some elems →
  (∀ source, edited act = Some source → is_Source (objs st) source = true) →
  ∃ st' newSources passed,
    handle sources act st = Ok (tt, st')
    ∧ called_back st st' newSources passed
    ∧ (is_Some (edited act) → passed = elems).
Proof.
  intros Hsrc Htyped.
  destruct act as [|source|f source event|source event|source scripts];
    simpl in *.
  - destruct (new_Source_spec st) as (s & h' & Hrun & _).
    eexists _, _, (elems ++ [s]).
    split; [by apply (addSourceHandler_run st sources elems s h')|].
    split; [apply (called_back_alloc h' (arrs st) (calls st))|].
    by intros [? ?].
  - eexists _, _, _.
    split; [by apply deleteSourceHandler_run|].
    split; [apply called_back_alloc|]. by intros [? ?].
  - assert (Halloc : is_Some (objs st !! source))
      by (apply is_Source_alloc; by apply Htyped).
    destruct (decide (f = "__proto__")) as [->|Hordinary].
    + eexists _, _, elems.
      split; [by apply (set_proto_then_changed st sources elems)|].
      split; [apply called_back_alloc | done].
    + destruct (set_then_changed_frame st sources elems source f
                  (VString (value (target event))) Hsrc Halloc Hordinary)
        as (st' & newSources & Hrun & _ & _ & _ & _ & Hcb & _).
      by exists st', newSources, elems.
  - specialize (Htyped source eq_refl).
    apply bool_decide_eq_true in Htyped
      as [scope (sp & Hsp & Hsc & [o Ho])%scope_of_Some].
    eexists _, _, elems.
    split; [by eapply searchParametersScopePathChangedHandler_run|].
    split; [apply called_back_alloc | done].
  - assert (Halloc : is_Some (objs st !! source))
      by (apply is_Source_alloc; by apply Htyped).
    destruct (set_then_changed_frame st sources elems source
                "loadConversionScript"
                (default VUndefined (scripts !! 0%nat)) Hsrc Halloc
                ltac:(done))
      as (st' & newSources & Hrun & _ & _ & _ & _ & Hcb & _).
    by exists st', newSources, elems.
Qed.

Lemma Sources_typed_elems st sources :
  Sources_typed st sources = true →
  ∃ elems, arrs st !! sources = Some elems
           ∧ ∀ source, source ∈ elems → is_Source (objs st) source = true.
Proof.
  unfold Sources_typed. destruct (arrs st !! sources) as [elems|]; [|done].
  intros Hall. exists elems. split; [done|].
  intros source Hin%list_elem_of_In.
  by apply (proj1 (forallb_forall _ _) Hall).
Qed.

Lemma rendered_typed st sources act :
  Sources_typed st sources = true →
  rendered st sources act = true →
  ∀ source, edited act = Some source → is_Source (objs st) source = true.
Proof.
  intros (elems & Hsrc & Hall)%Sources_typed_elems Hrendered source Hact.
  unfold rendered in Hrendered. rewrite Hact, Hsrc in Hrendered.
  apply Hall. by apply bool_decide_eq_true in Hrendered.
Qed.

(** New objects keep every existing chain in place. *)
Lemma scope_of_extends h h' source scope :
  extends h h' → scope_of h source = Some scope →
  scope_of h' source = Some scope.
Proof.
  intros Hext (sp & Hsp & Hsc & Halloc)%scope_of_Some.
  assert (Hfield : ∀ l f l', field h l f = VRef l' → field h' l f = VRef l').
  { intros l f l' Hl. pose proof Hl as (o & Ho & _)%field_VRef_alloc.
    unfold field in *. by rewrite Hext by eauto. }
  apply scope_of_Some. exists sp.
  split; [by apply Hfield|]. split; [by apply Hfield|].
  by rewrite Hext.
Qed.

Lemma Sources_typed_intro st a elems :
  arrs st !! a = Some elems →
  (∀ source, source ∈ elems → is_Source (objs st) source = true) →
  Sources_typed st a = true.
Proof.
  intros Ha Hall. unfold Sources_typed. rewrite Ha.
  apply forallb_forall. intros source Hin%list_elem_of_In. by apply Hall.
Qed.

Lemma is_Source_set_field (h : gmap loc obj) l0 (o : obj) f0 x source :
  h !! l0 = Some o →
  f0 ≠ "searchParameters" → f0 ≠ "scope" →
  is_Source (<[l0 := <[f0 := x]> o]> h) source = is_Source h source.
Proof. intros. unfold is_Source. by rewrite scope_of_set_field. Qed.

Lemma input_fields_keep_chain f :
  f ∈ input_fields → f ≠ "searchParameters" ∧ f ≠ "scope".
Proof.
  assert ("searchParameters" ∉ input_fields) by (unfold input_fields; list_mem).
  assert ("scope" ∉ input_fields) by (unfold input_fields; list_mem).
  intros Hin. split; by intros ->.
Qed.

Lemma input_fields_ordinary f : f ∈ input_fields → f ≠ "__proto__".
Proof.
  assert ("__proto__" ∉ input_fields) by (unfold input_fields; list_mem).
  by intros Hin ->.
Qed.

(** The typing of [sources] is an invariant of the component: after any
    action through the rendered panel, whose text inputs are bound to
    [input_fields], the array handed to the callback is again a list of
    well-formed sources. *)
Lemma handle_keeps_Sources_typed st sources act st' :
  Sources_typed st sources = true →
  rendered st sources act = true →
  (∀ f source event, act = FieldEdit f source event → f ∈ input_fields) →
  handle sources act st = Ok (tt, st') →
  ∃ newSources,
    last (calls st') = Some newSources
    ∧ Sources_typed st' newSources = true.
Proof.
  intros Htyped Hrendered Hwired Hrun.
  pose proof (rendered_typed _ _ _ Htyped Hrendered) as Hact.
  apply Sources_typed_elems in Htyped as (elems & Hsrc & Hall).
  exists (fresh (dom (arrs st))).
  destruct act as [|source|f source event|source event|source scripts];
    simpl in *.
  - destruct (new_Source_spec st)
      as (s & h' & Hnew & _ & Hext & _ & _ & Hs).
    rewrite (addSourceHandler_run st sources elems s h') in Hrun by done.
    simplify_eq. simpl. split; [apply last_snoc|].
    eapply Sources_typed_intro; [apply lookup_insert_eq|]. simpl.
    intros source [Hin| ->%list_elem_of_singleton]%elem_of_app; [|done].
    apply Hall in Hin.
    apply bool_decide_eq_true in Hin as [scope Hscope].
    apply bool_decide_eq_true. erewrite scope_of_extends; eauto.
  - rewrite (deleteSourceHandler_run st sources elems) in Hrun by done.
    simplify_eq. simpl. split; [apply last_snoc|].
    eapply Sources_typed_intro; [apply lookup_insert_eq|]. simpl.
    intros s [_ Hin]%list_elem_of_filter. by apply Hall.
  - destruct (is_Source_alloc _ _ (Hact source eq_refl)) as [o Ho].
    destruct (input_fields_keep_chain f (Hwired _ _ _ eq_refl)).
    pose proof (input_fields_ordinary f (Hwired _ _ _ eq_refl)).
    unfold fieldChangedHandler in Hrun.
    rewrite (set_then_changed st sources elems source o) in Hrun by done.
    simplify_eq. simpl. split; [apply last_snoc|].
    eapply Sources_typed_intro; [apply lookup_insert_eq|]. simpl.
    intros s Hin. rewrite is_Source_set_field; [by apply Hall|done..].
  - pose proof (Hact source eq_refl) as Hs.
    apply bool_decide_eq_true in Hs
      as [scope (sp & Hsp & Hsc & [o Ho])%scope_of_Some].
    rewrite (searchParametersScopePathChangedHandler_run
               st sources elems source event sp scope o) in Hrun by done.
    simplify_eq. simpl. split; [apply last_snoc|].
    eapply Sources_typed_intro; [apply lookup_insert_eq|]. simpl.
    intros s Hin. rewrite is_Source_set_field; [by apply Hall|done..].
  - destruct (is_Source_alloc _ _ (Hact source eq_refl)) as [o Ho].
    unfold scriptsChanged in Hrun.
    rewrite (set_then_changed st sources elems source o) in Hrun by done.
    simplify_eq. simpl. split; [apply last_snoc|].
    eapply Sources_typed_intro; [apply lookup_insert_eq|]. simpl.
    intros s Hin. rewrite is_Source_set_field; [by apply Hall|done..].
Qed.

(** What the typing is for: on a record without [searchParameters] the
    assignment [source.searchParameters.scope.path = newValue] raises a
    [TypeError], before the callback is reached.  The other handlers do not
    read the nested objects and run on it all the same. *)
Lemma scope_path_edit_needs_Source :
  Sources_typed untyped_sample 10 = false
  ∧ handle 10 (ScopePathEdit 1 (ev "data")) untyped_sample = Throw TypeError
  ∧ ∃ st', handle 10 (FieldEdit "comment" 1 (ev "x")) untyped_sample
             = Ok (tt, st').
Proof. split; [|split]; [reflexivity..|eexists; reflexivity]. Qed.

(** C4.  Every operation of the component is total: on any list of sources
    (objects of the shape their type declares) and for any action of the
    user on the rendered panel (add, delete, field edit, scope path edit,
    script change), whatever the strings, the handler runs to the end and
    returns; it raises nothing. *)
Theorem handle_total st sources act :
  Sources_typed st sources = true →
  rendered st sources act = true →
  ∃ st', handle sources act st = Ok (tt, st').
Proof.
  intros Htyped Hrendered.
  pose proof (rendered_typed _ _ _ Htyped Hrendered) as Hact.
  apply Sources_typed_elems in Htyped as (elems & Hsrc & _).
  destruct (handle_run st sources elems act Hsrc Hact)
    as (st' & _ & _ & Hrun & _).
  by exists st'.
Qed.

Lemma handle_total_witness :
  Sources_typed sample 10 = true
  ∧ rendered sample 10 (ScopePathEdit 7 (ev "data/search/**")) = true
  ∧ ∃ st', handle 10 (ScopePathEdit 7 (ev "data/search/**")) sample
             = Ok (tt, st').
Proof.
  split; [vm_compute; reflexivity|]. split; [vm_compute; reflexivity|].
  apply (handle_total sample 10 (ScopePathEdit 7 (ev "data/search/**")));
    vm_compute; reflexivity.
Defined.

(** C7.  Whatever the action, the array passed to the callback is a new one:
    it did not exist before the action, so it is not the array [sources],
    which is left as it was.  After an edit it holds the very references
    that [sources] holds. *)
Theorem handle_passes_new_array st sources elems act :
  arrs st !! sources = Some elems →
  Sources_typed st sources = true →
  rendered st sources act = true →
  ∃ st' newSources passed,
    handle sources act st = Ok (tt, st')
    ∧ last (calls st') = Some newSources
    ∧ arrs st !! newSources = None
    ∧ arrs st' !! newSources = Some passed
    ∧ newSources ≠ sources
    ∧ arrs st' !! sources = Some elems
    ∧ (is_Some (edited act) → passed = elems).
Proof.
  intros Hsrc Htyped Hrendered.
  pose proof (rendered_typed _ _ _ Htyped Hrendered) as Hact.
  destruct (handle_run st sources elems act Hsrc Hact)
    as (st' & newSources & passed & Hrun & Hcb & Hedit).
  assert (Hne : newSources ≠ sources)
    by (eapply called_back_ne; [|exact Hcb]; eauto).
  destruct Hcb as (Hcalls & Hnew & Hpassed & Hother).
  exists st', newSources, passed.
  split; [done|]. split; [by rewrite Hcalls, last_snoc|].
  split; [done|]. split; [done|]. split; [done|].
  split; [by rewrite Hother|done].
Qed.

Lemma handle_passes_new_array_witness :
  arrs sample !! 10%positive = Some [1%positive; 4%positive; 7%positive]
  ∧ Sources_typed sample 10 = true
  ∧ rendered sample 10 (FieldEdit "comment" 1 (ev "main search")) = true
  ∧ ∃ st' newSources passed,
      handle 10 (FieldEdit "comment" 1 (ev "main search")) sample = Ok (tt, st')
      ∧ last (calls st') = Some newSources
      ∧ arrs sample !! newSources = None
      ∧ arrs st' !! newSources = Some passed
      ∧ newSources ≠ 10%positive
      ∧ arrs st' !! 10%positive = Some [1%positive; 4%positive; 7%positive]
      ∧ (is_Some (edited (FieldEdit "comment" 1 (ev "main search"))) →
           passed = [1%positive; 4%positive; 7%positive]).
Proof.
  split; [reflexivity|].
  split; [vm_compute; reflexivity|]. split; [vm_compute; reflexivity|].
  apply (handle_passes_new_array sample 10 [1; 4; 7]%positive
           (FieldEdit "comment" 1 (ev "main search")));
    vm_compute; reflexivity.
Defined.

(** C8.  One action of the user, one call of the callback: the log of calls
    after the action is the log before it with one entry more. *)
Theorem handle_calls_back_once st sources act :
  Sources_typed st sources = true →
  rendered st sources act = true →
  ∃ st' newSources,
    handle sources act st = Ok (tt, st')
    ∧ calls st' = calls st ++ [newSources]
    ∧ length (calls st') = S (length (calls st)).
Proof.
  intros Htyped Hrendered.
  pose proof (rendered_typed _ _ _ Htyped Hrendered) as Hact.
  apply Sources_typed_elems in Htyped as (elems & Hsrc & _).
  destruct (handle_run st sources elems act Hsrc Hact)
    as (st' & newSources & passed & Hrun & Hcb & _).
  exists st', newSources. split; [done|].
  split; [by destruct Hcb | by eapply called_back_length].
Qed.

Lemma handle_calls_back_once_witness :
  Sources_typed sample 10 = true
  ∧ rendered sample 10 (Delete 4) = true
  ∧ ∃ st' newSources,
      handle 10 (Delete 4) sample = Ok (tt, st')
      ∧ calls st' = calls sample ++ [newSources]
      ∧ length (calls st') = S (length (calls sample)).
Proof.
  split; [vm_compute; reflexivity|]. split; [vm_compute; reflexivity|].
  apply (handle_calls_back_once sample 10 (Delete 4)); vm_compute; reflexivity.
Defined.

(** * Beyond the single handlers: the view and the way actions compose *)

(** ** Rendering *)

Lemma bind_Ok {A B} (m : M A) (k : A → M B) st a st' :
  m st = Ok (a, st') → (m ≫= k) st = k a st'.
Proof. intros H. unfold mbind, M_bind. by rewrite H. Qed.

Lemma get_prop_ref st l f :
  is_Some (objs st !! l) →
  get_prop (VRef l) f st = Ok (field (objs st) l f, st).
Proof. intros [o Ho]. unfold get_prop, field. by rewrite Ho. Qed.

(** On a well-formed source every read of [render_item] succeeds and the
    panel is the one the pure readers give. *)
Lemma render_item_run st index source :
  is_Source (objs st) source = true →
  render_item index source st = Ok (panel (objs st) index source, st).
Proof.
  intros Htyped. pose proof (is_Source_alloc _ _ Htyped) as Halloc.
  apply bool_decide_eq_true in Htyped as [scope Hscope].
  pose proof Hscope as (sp & Hsp & Hsc & Hscope_alloc)%scope_of_Some.
  pose proof Hsc as (osp & Hosp & _)%field_VRef_alloc.
  unfold render_item.
  do 5 (erewrite bind_Ok by (by apply get_prop_ref)).
  erewrite bind_Ok by (by apply get_prop_ref). rewrite Hsp.
  erewrite bind_Ok by (apply get_prop_ref; eauto). rewrite Hsc.
  erewrite bind_Ok by (by apply get_prop_ref).
  do 2 (erewrite bind_Ok by (by apply get_prop_ref)).
  unfold panel, scope_path. by rewrite Hscope.
Qed.

Lemma render_items_run st index elems :
  (∀ source, source ∈ elems → is_Source (objs st) source = true) →
  render_items index elems st
    = Ok (imap (λ i, panel (objs st) (index + i)) elems, st).
Proof.
  revert index. induction elems as [|source rest IH]; intros index Hall.
  - done.
  - simpl. erewrite bind_Ok
      by (apply render_item_run, Hall, list_elem_of_here).
    erewrite bind_Ok
      by (apply IH; intros s Hs; by apply Hall, list_elem_of_further).
    unfold mret, M_ret. rewrite Nat.add_0_r. do 3 f_equal.
    apply imap_ext. intros i x _. simpl. f_equal. lia.
Qed.

Lemma render_run st sources elems :
  arrs st !! sources = Some elems →
  (∀ source, source ∈ elems → is_Source (objs st) source = true) →
  render sources st
    = Ok ({| expander_id := "sourcesExpander";
             items := imap (panel (objs st)) elems;
             onClick := Add |}, st).
Proof.
  intros Hsrc Hall. unfold render.
  erewrite bind_Ok by (unfold elements_of; by rewrite Hsrc).
  erewrite bind_Ok by (by apply render_items_run).
  done.
Qed.

Lemma bind_Ok_inv {A B} (m : M A) (k : A → M B) st b st' :
  (m ≫= k) st = Ok (b, st') →
  ∃ a st1, m st = Ok (a, st1) ∧ k a st1 = Ok (b, st').
Proof.
  unfold mbind, M_bind. destruct (m st) as [[a st1]|e]; [eauto | discriminate].
Qed.

Lemma get_prop_state v f st x st' : get_prop v f st = Ok (x, st') → st' = st.
Proof. unfold get_prop. intros H. repeat case_match; by simplify_eq. Qed.

Ltac inv_read H :=
  let Hread := fresh "Hread" in
  apply bind_Ok_inv in H as (? & ? & Hread & H);
  apply get_prop_state in Hread as ->.

(** Whatever the store, a panel that renders carries the index in its key
    and its id, is wired to its own source, and reading it changed
    nothing. *)
Lemma render_item_Ok index source st item st' :
  render_item index source st = Ok (item, st') →
  st' = st
  ∧ item_key item = pretty index
  ∧ item_id item = "source" +:+ pretty (index + 1)%nat
  ∧ ∀ event reported,
      item_actions event reported item =
        [Delete source;
         FieldEdit "filename" source event;
         FieldEdit "searchType" source event;
         FieldEdit "sourceName" source event;
         FieldEdit "sourceIdentifier" source event;
         ScopePathEdit source event;
         ScriptsEdit source reported;
         FieldEdit "comment" source event].
Proof.
  unfold render_item. intros H. do 10 inv_read H.
  unfold mret, M_ret in H. by simplify_eq.
Qed.

Lemma render_items_Ok index elems st its st' :
  render_items index elems st = Ok (its, st') →
  st' = st
  ∧ item_key <$> its = pretty <$> seq index (length elems)
  ∧ item_id <$> its
      = (λ i, "source" +:+ pretty (i + 1)%nat) <$> seq index (length elems).
Proof.
  revert index its. induction elems as [|source rest IH]; intros index its H.
  - simpl in H. unfold mret, M_ret in H. by simplify_eq.
  - simpl in H.
    apply bind_Ok_inv in H as (item & st1 & Hitem & H).
    apply bind_Ok_inv in H as (more & st2 & Hmore & H).
    unfold mret, M_ret in H. simplify_eq.
    apply render_item_Ok in Hitem as (-> & Hkey & Hid & _).
    apply IH in Hmore as (-> & Hkeys & Hids).
    cbn [length seq]. rewrite !fmap_cons. by rewrite Hkey, Hid, Hkeys, Hids.
Qed.

#[local] Instance item_id_of_index_inj :
  Inj (=) (=) (λ i : nat, "source" +:+ pretty (i + 1)%nat).
Proof.
  intros i j Heq. apply (inj (String.append "source")) in Heq.
  apply (inj pretty) in Heq. lia.
Qed.

(** X1.  Whenever rendering returns, it has changed nothing and called
    nothing, the view has one panel per element of [sources], the panel at
    place [i] has the key [i] and the id [source(i+1)] in decimal, and so no
    two panels share a key or an id. *)
Theorem render_keys_unique st sources elems view st' :
  arrs st !! sources = Some elems →
  render sources st = Ok (view, st') →
  st' = st
  ∧ length (items view) = length elems
  ∧ (∀ i item, items view !! i = Some item →
       item_key item = pretty i
       ∧ item_id item = "source" +:+ pretty (i + 1)%nat)
  ∧ NoDup (item_key <$> items view)
  ∧ NoDup (item_id <$> items view).
Proof.
  intros Hsrc Hrender. unfold render in Hrender.
  apply bind_Ok_inv in Hrender as (elems' & st1 & Helems & Hrender).
  unfold elements_of in Helems. rewrite Hsrc in Helems.
  injection Helems as <- <-.
  apply bind_Ok_inv in Hrender as (its & st2 & Hits & Hrender).
  unfold mret, M_ret in Hrender. injection Hrender as <- <-. simpl.
  apply render_items_Ok in Hits as (-> & Hkeys & Hids).
  split; [done|].
  split.
  { rewrite <- (length_fmap item_key its), Hkeys, length_fmap.
    apply length_seq. }
  split.
  { intros i item Hitem.
    assert (Hi : (i < length elems)%nat).
    { apply lookup_lt_Some in Hitem.
      by rewrite <- (length_fmap item_key its), Hkeys, length_fmap,
        length_seq in Hitem. }
    split.
    - assert (Hk : (item_key <$> its) !! i = Some (item_key item))
        by (by rewrite list_lookup_fmap, Hitem).
      rewrite Hkeys, list_lookup_fmap, lookup_seq_lt in Hk by done.
      by simplify_eq/=.
    - assert (Hk : (item_id <$> its) !! i = Some (item_id item))
        by (by rewrite list_lookup_fmap, Hitem).
      rewrite Hids, list_lookup_fmap, lookup_seq_lt in Hk by done.
      by simplify_eq/=. }
  split.
  - rewrite Hkeys. apply (NoDup_fmap_2 _), NoDup_seq.
  - rewrite Hids. apply (NoDup_fmap_2 _), NoDup_seq.
Qed.

Lemma render_keys_unique_witness :
  arrs sample !! 10%positive = Some [1%positive; 4%positive; 7%positive]
  ∧ render 10 sample = Ok (sample_view, sample)
  ∧ sample = sample
  ∧ length (items sample_view) = length [1%positive; 4%positive; 7%positive]
  ∧ (∀ i item, items sample_view !! i = Some item →
       item_key item = pretty i
       ∧ item_id item = "source" +:+ pretty (i + 1)%nat)
  ∧ NoDup (item_key <$> items sample_view)
  ∧ NoDup (item_id <$> items sample_view).
Proof.
  assert (Hrender : render 10 sample = Ok (sample_view, sample))
    by (vm_compute; reflexivity).
  split; [reflexivity|]. split; [exact Hrender|].
  apply (render_keys_unique sample 10 [1; 4; 7]%positive sample_view sample);
    [reflexivity | exact Hrender].
Defined.

(** X2.  On a list of well-formed sources rendering returns, without
    changing anything, a view whose panels follow the array: the panel at
    place [i] is named by the filename of the element at place [i], its
    delete button deletes that element, its text inputs show that element's
    five text fields and scope path, and its scripts editor is handed the
    element's script as a one-element list. *)
Theorem render_shows_sources st sources elems :
  arrs st !! sources = Some elems →
  Sources_typed st sources = true →
  ∃ view,
    render sources st = Ok (view, st)
    ∧ onClick view = Add
    ∧ length (items view) = length elems
    ∧ ∀ i source, elems !! i = Some source →
        ∃ item,
          items view !! i = Some item
          ∧ item_name item = field (objs st) source "filename"
          ∧ onDelete item = Delete source
          ∧ (λ input, (input_id input, input_value input)) <$> inputs item
              = [("filename", field (objs st) source "filename");
                 ("searchType", field (objs st) source "searchType");
                 ("sourceName", field (objs st) source "sourceName");
                 ("sourceIdentifier",
                    field (objs st) source "sourceIdentifier");
                 ("searchParametersScopePath", scope_path (objs st) source);
                 ("comment", field (objs st) source "comment")]
          ∧ scripts <$> editors item
              = [[field (objs st) source "loadConversionScript"]].
Proof.
  intros Hsrc Htyped.
  apply Sources_typed_elems in Htyped as (elems' & Hsrc' & Hall).
  simplify_eq. eexists. split; [by apply render_run|]. simpl.
  split; [done|]. split; [apply length_imap|].
  intros i source Hi. exists (panel (objs st) i source).
  split; [by rewrite list_lookup_imap, Hi|]. done.
Qed.

Lemma render_shows_sources_witness :
  arrs sample !! 10%positive = Some [1%positive; 4%positive; 7%positive]
  ∧ Sources_typed sample 10 = true
  ∧ ∃ view,
      render 10 sample = Ok (view, sample)
      ∧ onClick view = Add
      ∧ length (items view) = length [1%positive; 4%positive; 7%positive]
      ∧ ∀ i source, [1%positive; 4%positive; 7%positive] !! i = Some source →
          ∃ item,
            items view !! i = Some item
            ∧ item_name item = field (objs sample) source "filename"
            ∧ onDelete item = Delete source
            ∧ (λ input, (input_id input, input_value input)) <$> inputs item
                = [("filename", field (objs sample) source "filename");
                   ("searchType", field (objs sample) source "searchType");
                   ("sourceName", field (objs sample) source "sourceName");
                   ("sourceIdentifier",
                      field (objs sample) source "sourceIdentifier");
                   ("searchParametersScopePath",
                      scope_path (objs sample) source);
                   ("comment", field (objs sample) source "comment")]
            ∧ scripts <$> editors item
                = [[field (objs sample) source "loadConversionScript"]].
Proof.
  split; [reflexivity|]. split; [vm_compute; reflexivity|].
  apply (render_shows_sources sample 10 [1; 4; 7]%positive);
    [reflexivity | vm_compute; reflexivity].
Defined.

(** ** From the view back to the handlers *)

(** The actions a rendered view offers are about elements of [sources], and
    its text inputs are bound to [input_fields]. *)
Lemma view_action_rendered st sources elems event reported act :
  arrs st !! sources = Some elems →
  act ∈ view_actions event reported
          {| expander_id := "sourcesExpander";
             items := imap (panel (objs st)) elems;
             onClick := Add |} →
  rendered st sources act = true
  ∧ ∀ f source event', act = FieldEdit f source event' → f ∈ input_fields.
Proof.
  intros Hsrc Hact. unfold view_actions in Hact. simpl in Hact.
  apply elem_of_cons in Hact as [->|Hact]; [by split|].
  apply list_elem_of_bind in Hact as (item & Hact & Hitem).
  apply list_elem_of_lookup in Hitem as [i Hitem].
  rewrite list_lookup_imap in Hitem.
  destruct (elems !! i) as [source|] eqn:Hi; [|done].
  simpl in Hitem. injection Hitem as <-.
  assert (Hin : source ∈ elems) by (apply list_elem_of_lookup; eauto).
  assert (Hrendered : ∀ act', edited act' = Some source →
                        rendered st sources act' = true).
  { intros act' Hact'. unfold rendered. rewrite Hact', Hsrc.
    by apply bool_decide_eq_true. }
  unfold item_actions, panel in Hact. simpl in Hact.
  repeat (apply elem_of_cons in Hact as [->|Hact]);
    try (split; [by (done || apply Hrendered)|];
         intros f source' event' Heq; try discriminate;
         injection Heq as <- _ _; unfold input_fields; list_mem).
  by apply elem_of_nil in Hact.
Qed.

(** X3.  Whatever the user does in a view rendered from well-formed
    sources (the Add button, a delete button, typing in any text input, a
    report of the scripts editor), the handler behind it returns, calls the
    callback exactly once, and the array it passes is again a list of
    well-formed sources, so the next view renders as well. *)
Theorem view_actions_handled st sources view event reported act :
  Sources_typed st sources = true →
  render sources st = Ok (view, st) →
  act ∈ view_actions event reported view →
  ∃ st' newSources view',
    handle sources act st = Ok (tt, st')
    ∧ calls st' = calls st ++ [newSources]
    ∧ Sources_typed st' newSources = true
    ∧ render newSources st' = Ok (view', st').
Proof.
  intros Htyped Hrender Hact.
  pose proof Htyped as (elems & Hsrc & Hall)%Sources_typed_elems.
  rewrite (render_run st sources elems) in Hrender by done.
  injection Hrender as <-.
  apply (view_action_rendered st sources elems) in Hact
    as [Hrendered Hwired]; [|done].
  pose proof (rendered_typed _ _ _ Htyped Hrendered) as Hedited.
  destruct (handle_run st sources elems act Hsrc Hedited)
    as (st' & newSources & passed & Hrun & Hcb & _).
  destruct (handle_keeps_Sources_typed st sources act st'
              Htyped Hrendered Hwired Hrun) as (a & Hlast & Htyped').
  destruct Hcb as (Hcalls & _).
  rewrite Hcalls, last_snoc in Hlast. injection Hlast as <-.
  pose proof Htyped' as (elems' & Hsrc' & Hall')%Sources_typed_elems.
  eexists st', newSources, _.
  split; [done|]. split; [done|]. split; [done|].
  by apply (render_run st' newSources elems').
Qed.

Lemma view_actions_handled_witness :
  Sources_typed sample 10 = true
  ∧ render 10 sample = Ok (sample_view, sample)
  ∧ ScopePathEdit 4 (ev "data/pdfs") ∈ view_actions (ev "data/pdfs") [] sample_view
  ∧ ∃ st' newSources view',
      handle 10 (ScopePathEdit 4 (ev "data/pdfs")) sample = Ok (tt, st')
      ∧ calls st' = calls sample ++ [newSources]
      ∧ Sources_typed st' newSources = true
      ∧ render newSources st' = Ok (view', st').
Proof.
  assert (Hrender : render 10 sample = Ok (sample_view, sample))
    by (vm_compute; reflexivity).
  assert (Hact : ScopePathEdit 4 (ev "data/pdfs")
                   ∈ view_actions (ev "data/pdfs") [] sample_view).
  { unfold view_actions, sample_view. simpl.
    repeat first [apply list_elem_of_here | apply list_elem_of_further]. }
  split; [vm_compute; reflexivity|]. split; [exact Hrender|].
  split; [exact Hact|].
  apply (view_actions_handled sample 10 sample_view (ev "data/pdfs") []
           (ScopePathEdit 4 (ev "data/pdfs")));
    [vm_compute; reflexivity | exact Hrender | exact Hact].
Defined.

(** ** An action, then the next view *)

Lemma input_shows_panel h elems i id :
  input_shows {| expander_id := "sourcesExpander";
                 items := imap (panel h) elems;
                 onClick := Add |} i id
  = source ← elems !! i; shown h source id.
Proof.
  unfold input_shows. simpl. rewrite list_lookup_imap.
  destruct (elems !! i) as [source|]; [|done]. simpl.
  unfold inputs, panel, shown. simpl. rewrite !filter_cons, filter_nil. simpl.
  repeat (case_decide; [subst; by repeat (case_decide; try discriminate)|]).
  by repeat (case_decide; [congruence|]).
Qed.

Lemma scope_path_set_field (h : gmap loc obj) l0 (o : obj) f0 x source :
  h !! l0 = Some o →
  f0 ≠ "searchParameters" → f0 ≠ "scope" → f0 ≠ "path" →
  scope_path (<[l0 := <[f0 := x]> o]> h) source = scope_path h source.
Proof.
  intros Ho Hsp Hsc Hpath. unfold scope_path.
  rewrite scope_of_set_field by done.
  destruct (scope_of h source) as [scope|]; [|done]. simpl.
  apply field_set_other; [done | congruence].
Qed.

Lemma input_fields_not_path f : f ∈ input_fields → f ≠ "path".
Proof.
  assert ("path" ∉ input_fields) by (unfold input_fields; list_mem).
  by intros Hin ->.
Qed.

Lemma shown_set_field (h : gmap loc obj) source (o : obj) fieldName x s id :
  h !! source = Some o →
  fieldName ∈ input_fields →
  shown (<[source := <[fieldName := x]> o]> h) s id
  = if decide (s = source ∧ id = fieldName) then Some x else shown h s id.
Proof.
  intros Ho Hin.
  destruct (input_fields_keep_chain _ Hin) as [Hsp Hsc].
  pose proof (input_fields_not_path _ Hin) as Hpath.
  assert (Hfield : ∀ f,
    field (<[source := <[fieldName := x]> o]> h) s f
    = if decide (s = source ∧ f = fieldName) then x else field h s f).
  { intros f. case_decide as Hd.
    - destruct Hd as [-> ->]. apply field_insert_eq.
    - apply field_set_other; [done|]. intros [= -> ->]. by apply Hd. }
  unfold shown. rewrite scope_path_set_field, !Hfield by done.
  destruct (decide (s = source ∧ id = fieldName)) as [[-> ->]|Hno].
  - unfold input_fields in Hin. rewrite !elem_of_cons, elem_of_nil in Hin.
    destruct Hin as [->|[->|[->|[->|[->|[]]]]]];
      repeat (case_decide as Hd; try discriminate; try done;
              try (exfalso; apply Hd; by split)).
  - repeat match goal with
           | |- context [decide (id = ?f)] =>
               destruct (decide (id = f)) as [->|?];
               [first [done
                      | rewrite decide_False; [done|];
                        intros [? ?]; apply Hno; by split]|]
           end.
    done.
Qed.

(** X4.  Typing into one of the five text inputs and rendering the array
    handed to the callback: the input typed into shows the raw string, in
    every panel of that record, and every other input of every panel shows
    what it showed before. *)
Theorem fieldChangedHandler_then_render
    st sources elems fieldName source event :
  arrs st !! sources = Some elems →
  Sources_typed st sources = true →
  source ∈ elems →
  fieldName ∈ input_fields →
  ∃ view st' newSources view',
    render sources st = Ok (view, st)
    ∧ fieldChangedHandler sources fieldName source event st = Ok (tt, st')
    ∧ last (calls st') = Some newSources
    ∧ render newSources st' = Ok (view', st')
    ∧ ∀ i id,
        input_shows view' i id =
          if decide (elems !! i = Some source ∧ id = fieldName)
          then Some (VString (value (target event)))
          else input_shows view i id.
Proof.
  intros Hsrc Htyped Hin Hfield.
  apply Sources_typed_elems in Htyped as (elems' & Hsrc' & Hall).
  assert (elems' = elems) as -> by congruence.
  destruct (is_Source_alloc _ _ (Hall source Hin)) as [o Ho].
  destruct (input_fields_keep_chain _ Hfield) as [Hsp Hsc].
  pose proof (input_fields_ordinary _ Hfield) as Hordinary.
  eexists _, _, _, _.
  split; [by apply (render_run st sources elems)|].
  split; [unfold fieldChangedHandler;
          by apply (set_then_changed st sources elems source o)|].
  split; [apply last_snoc|].
  split.
  { apply (render_run _ _ elems); simpl; [apply lookup_insert_eq|].
    intros s Hs. rewrite is_Source_set_field by done. by apply Hall. }
  intros i id. simpl. rewrite !input_shows_panel.
  destruct (elems !! i) as [s|] eqn:Hi; simpl.
  - rewrite (shown_set_field _ _ _ _ _ _ _ Ho Hfield).
    apply decide_ext. split; intros [? ?]; split; congruence.
  - done.
Qed.

Lemma fieldChangedHandler_then_render_witness :
  arrs sample !! 10%positive = Some [1%positive; 4%positive; 7%positive]
  ∧ Sources_typed sample 10 = true
  ∧ 4%positive ∈ [1%positive; 4%positive; 7%positive]
  ∧ "comment" ∈ input_fields
  ∧ ∃ view st' newSources view',
      render 10 sample = Ok (view, sample)
      ∧ fieldChangedHandler 10 "comment" 4 (ev "second run") sample
          = Ok (tt, st')
      ∧ last (calls st') = Some newSources
      ∧ render newSources st' = Ok (view', st')
      ∧ ∀ i id,
          input_shows view' i id =
            if decide ([1%positive; 4%positive; 7%positive] !! i
                         = Some 4%positive ∧ id = "comment")
            then Some (VString (value (target (ev "second run"))))
            else input_shows view i id.
Proof.
  assert (Hin : 4%positive ∈ [1%positive; 4%positive; 7%positive])
    by list_mem.
  assert (Hfield : "comment" ∈ input_fields)
    by (unfold input_fields; list_mem).
  split; [reflexivity|]. split; [vm_compute; reflexivity|].
  split; [exact Hin|]. split; [exact Hfield|].
  apply (fieldChangedHandler_then_render sample 10 [1; 4; 7]%positive
           "comment" 4 (ev "second run"));
    [reflexivity | vm_compute; reflexivity | exact Hin | exact Hfield].
Defined.

Lemma shown_set_path (h : gmap loc obj) scope (o : obj) x s id :
  h !! scope = Some o →
  shown (<[scope := <["path" := x]> o]> h) s id
  = if decide (id = "searchParametersScopePath" ∧ scope_of h s = Some scope)
    then Some x else shown h s id.
Proof.
  intros Ho.
  assert (Hfield : ∀ f, f ≠ "path" →
    field (<[scope := <["path" := x]> o]> h) s f = field h s f).
  { intros f Hf. apply field_set_other; [done | congruence]. }
  assert (Hpath : scope_path (<[scope := <["path" := x]> o]> h) s
    = if decide (scope_of h s = Some scope) then x else scope_path h s).
  { unfold scope_path. rewrite scope_of_set_field by done.
    destruct (scope_of h s) as [sc|]; simpl.
    - case_decide as Hd.
      + injection Hd as ->. apply field_insert_eq.
      + apply field_insert_ne_loc. congruence.
    - done. }
  unfold shown. rewrite Hpath, !Hfield by done.
  repeat match goal with
         | |- context [decide (id = ?f)] =>
             destruct (decide (id = f)) as [->|?];
             [try (rewrite decide_False by (by intros [? _]); done)|]
         end.
  - destruct (decide (scope_of h s = Some scope)).
    + by rewrite decide_True.
    + by rewrite decide_False by (by intros [_ ?]).
  - by rewrite decide_False by (by intros [? _]).
Qed.

(** X5.  Typing into the scope path input and rendering the array handed to
    the callback: the scope path input shows the raw string in the panel of
    that record, and in the panel of any record that has the same scope
    object; every other input of every panel shows what it showed
    before. *)
Theorem searchParametersScopePathChangedHandler_then_render
    st sources elems source event :
  arrs st !! sources = Some elems →
  Sources_typed st sources = true →
  source ∈ elems →
  ∃ view st' newSources view' scope,
    render sources st = Ok (view, st)
    ∧ searchParametersScopePathChangedHandler sources source event st
        = Ok (tt, st')
    ∧ last (calls st') = Some newSources
    ∧ render newSources st' = Ok (view', st')
    ∧ scope_of (objs st) source = Some scope
    ∧ ∀ i id,
        input_shows view' i id =
          if decide (id = "searchParametersScopePath"
                     ∧ elems !! i ≫= scope_of (objs st) = Some scope)
          then Some (VString (value (target event)))
          else input_shows view i id.
Proof.
  intros Hsrc Htyped Hin.
  apply Sources_typed_elems in Htyped as (elems' & Hsrc' & Hall).
  assert (elems' = elems) as -> by congruence.
  pose proof (Hall source Hin) as Hsource.
  apply bool_decide_eq_true in Hsource as [scope Hscope].
  pose proof Hscope as (sp & Hsp & Hsc & [o Ho])%scope_of_Some.
  eexists _, _, _, _, scope.
  split; [by apply (render_run st sources elems)|].
  split; [by eapply searchParametersScopePathChangedHandler_run|].
  split; [apply last_snoc|].
  split.
  { apply (render_run _ _ elems); simpl; [apply lookup_insert_eq|].
    intros s Hs. rewrite is_Source_set_field by done. by apply Hall. }
  split; [done|].
  intros i id. simpl. rewrite !input_shows_panel.
  destruct (elems !! i) as [s|] eqn:Hi; simpl.
  - by rewrite (shown_set_path _ _ _ _ _ _ Ho).
  - case_decide as Hd; [by destruct Hd as [_ ?] | done].
Qed.

Lemma searchParametersScopePathChangedHandler_then_render_witness :
  arrs sample !! 10%positive = Some [1%positive; 4%positive; 7%positive]
  ∧ Sources_typed sample 10 = true
  ∧ 7%positive ∈ [1%positive; 4%positive; 7%positive]
  ∧ ∃ view st' newSources view' scope,
      render 10 sample = Ok (view, sample)
      ∧ searchParametersScopePathChangedHandler 10 7 (ev "data/search") sample
          = Ok (tt, st')
      ∧ last (calls st') = Some newSources
      ∧ render newSources st' = Ok (view', st')
      ∧ scope_of (objs sample) 7 = Some scope
      ∧ ∀ i id,
          input_shows view' i id =
            if decide (id = "searchParametersScopePath"
                       ∧ [1%positive; 4%positive; 7%positive] !! i
                           ≫= scope_of (objs sample) = Some scope)
            then Some (VString (value (target (ev "data/search"))))
            else input_shows view i id.
Proof.
  assert (Hin : 7%positive ∈ [1%positive; 4%positive; 7%positive])
    by list_mem.
  split; [reflexivity|]. split; [vm_compute; reflexivity|].
  split; [exact Hin|].
  apply (searchParametersScopePathChangedHandler_then_render
           sample 10 [1; 4; 7]%positive 7 (ev "data/search"));
    [reflexivity | vm_compute; reflexivity | exact Hin].
Defined.

Lemma field_extends h h' l f :
  extends h h' → is_Some (h !! l) → field h' l f = field h l f.
Proof. intros Hext Hl. unfold field. by rewrite Hext. Qed.

Lemma shown_extends h h' source id :
  extends h h' → is_Source h source = true →
  shown h' source id = shown h source id.
Proof.
  intros Hext Htyped.
  pose proof (is_Source_alloc _ _ Htyped) as Halloc.
  apply bool_decide_eq_true in Htyped as [scope Hscope].
  pose proof Hscope as (_ & _ & _ & Hsc)%scope_of_Some.
  unfold shown, scope_path.
  rewrite (scope_of_extends h h' source scope), Hscope by done. simpl.
  by rewrite !(field_extends h h') by done.
Qed.

Lemma shown_empty h source id :
  Forall (λ f, field h source f = VString "") input_fields →
  scope_path h source = VString "" →
  shown h source id
  = if decide (id ∈ input_fields ∨ id = "searchParametersScopePath")
    then Some (VString "") else None.
Proof.
  intros Hfields Hpath. unfold input_fields in *.
  repeat (apply Forall_cons in Hfields as [? Hfields]).
  unfold shown.
  repeat match goal with
         | |- context [decide (id = ?f)] =>
             destruct (decide (id = f)) as [->|?];
             [rewrite decide_True;
              [congruence | first [by right | left; list_mem]]|]
         end.
  rewrite decide_False; [done|].
  rewrite !elem_of_cons, elem_of_nil. intros [Hid| ->]; [|done].
  repeat (destruct Hid as [->|Hid]; [done|]). done.
Qed.

(** X6.  Pressing Add and rendering the array handed to the callback: the
    view has one panel more; the panels there before show what they showed,
    and the new panel, at the end, shows the empty string in each of its
    six text inputs. *)
Theorem addSourceHandler_then_render st sources elems :
  arrs st !! sources = Some elems →
  Sources_typed st sources = true →
  ∃ view st' newSources view',
    render sources st = Ok (view, st)
    ∧ addSourceHandler sources st = Ok (tt, st')
    ∧ last (calls st') = Some newSources
    ∧ render newSources st' = Ok (view', st')
    ∧ length (items view') = S (length (items view))
    ∧ (∀ i id, (i < length elems)%nat →
         input_shows view' i id = input_shows view i id)
    ∧ ∀ id,
        input_shows view' (length elems) id =
          if decide (id ∈ input_fields ∨ id = "searchParametersScopePath")
          then Some (VString "") else None.
Proof.
  intros Hsrc Htyped.
  apply Sources_typed_elems in Htyped as (elems' & Hsrc' & Hall).
  assert (elems' = elems) as -> by congruence.
  destruct (new_Source_spec st)
    as (s & h' & Hnew & Hfresh & Hext & Hfields & Hpath & Hs).
  assert (Hall' : ∀ source, source ∈ elems ++ [s] →
                    is_Source h' source = true).
  { intros source [Hin| ->%list_elem_of_singleton]%elem_of_app; [|done].
    apply Hall in Hin. apply bool_decide_eq_true in Hin as [scope Hscope].
    apply bool_decide_eq_true. erewrite scope_of_extends; eauto. }
  eexists _, _, _, _.
  split; [by apply (render_run st sources elems)|].
  split; [by apply (addSourceHandler_run st sources elems s h')|].
  split; [apply last_snoc|].
  split.
  { apply (render_run _ _ (elems ++ [s])); simpl;
      [apply lookup_insert_eq | done]. }
  simpl. split; [rewrite !length_imap, length_app; simpl; lia|].
  split.
  - intros i id Hi. rewrite !input_shows_panel.
    rewrite lookup_app_l by done.
    destruct (elems !! i) as [source|] eqn:Hsource; [|done]. simpl.
    apply shown_extends; [done|].
    apply Hall, list_elem_of_lookup. eauto.
  - intros id. rewrite input_shows_panel.
    rewrite lookup_app_r, Nat.sub_diag by done. simpl.
    by apply shown_empty.
Qed.

Lemma addSourceHandler_then_render_witness :
  arrs sample !! 10%positive = Some [1%positive; 4%positive; 7%positive]
  ∧ Sources_typed sample 10 = true
  ∧ ∃ view st' newSources view',
      render 10 sample = Ok (view, sample)
      ∧ addSourceHandler 10 sample = Ok (tt, st')
      ∧ last (calls st') = Some newSources
      ∧ render newSources st' = Ok (view', st')
      ∧ length (items view') = S (length (items view))
      ∧ (∀ i id, (i < length [1%positive; 4%positive; 7%positive])%nat →
           input_shows view' i id = input_shows view i id)
      ∧ ∀ id,
          input_shows view' (length [1%positive; 4%positive; 7%positive]) id =
            if decide (id ∈ input_fields ∨ id = "searchParametersScopePath")
            then Some (VString "") else None.
Proof.
  split; [reflexivity|]. split; [vm_compute; reflexivity|].
  apply (addSourceHandler_then_render sample 10 [1; 4; 7]%positive);
    [reflexivity | vm_compute; reflexivity].
Defined.

(** X7.  Deleting a record that stands at one place of the list and
    rendering the array handed to the callback: the view has one panel
    less; the panels before the deleted one show what they showed, and each
    place from the deleted one on shows what the next place showed before
    (the panels move up). *)
Theorem deleteSourceHandler_then_render st sources before source after :
  arrs st !! sources = Some (before ++ source :: after) →
  source ∉ before → source ∉ after →
  Sources_typed st sources = true →
  ∃ view st' newSources view',
    render sources st = Ok (view, st)
    ∧ deleteSourceHandler sources source st = Ok (tt, st')
    ∧ last (calls st') = Some newSources
    ∧ render newSources st' = Ok (view', st')
    ∧ S (length (items view')) = length (items view)
    ∧ ∀ i id,
        input_shows view' i id =
          input_shows view (if decide (i < length before)%nat then i else S i)
                      id.
Proof.
  intros Hsrc Hbefore Hafter Htyped.
  apply Sources_typed_elems in Htyped as (elems' & Hsrc' & Hall).
  assert (elems' = before ++ source :: after) as -> by congruence.
  eexists _, _, _, _.
  split; [by apply (render_run st sources (before ++ source :: after))|].
  split; [by apply deleteSourceHandler_run|].
  split; [apply last_snoc|].
  rewrite filter_ne_once by done.
  split.
  { apply (render_run _ _ (before ++ after)); simpl;
      [apply lookup_insert_eq|].
    intros s Hs. apply Hall. rewrite elem_of_app, elem_of_cons.
    apply elem_of_app in Hs as [?|?]; auto. }
  simpl. split; [rewrite !length_imap, !length_app; simpl; lia|].
  intros i id. rewrite !input_shows_panel. f_equal.
  case_decide as Hi.
  - by rewrite !lookup_app_l.
  - rewrite !lookup_app_r by lia.
    by replace (S i - length before)%nat with (S (i - length before)) by lia.
Qed.

Lemma deleteSourceHandler_then_render_witness :
  arrs sample !! 10%positive = Some ([1%positive] ++ 4%positive :: [7%positive])
  ∧ (4%positive ∉ [1%positive]) ∧ (4%positive ∉ [7%positive])
  ∧ Sources_typed sample 10 = true
  ∧ ∃ view st' newSources view',
      render 10 sample = Ok (view, sample)
      ∧ deleteSourceHandler 10 4 sample = Ok (tt, st')
      ∧ last (calls st') = Some newSources
      ∧ render newSources st' = Ok (view', st')
      ∧ S (length (items view')) = length (items view)
      ∧ ∀ i id,
          input_shows view' i id =
            input_shows view
              (if decide (i < length [1%positive])%nat then i else S i) id.
Proof.
  assert (Hbefore : 4%positive ∉ [1%positive]) by list_mem.
  assert (Hafter : 4%positive ∉ [7%positive]) by list_mem.
  split; [reflexivity|]. split; [exact Hbefore|]. split; [exact Hafter|].
  split; [vm_compute; reflexivity|].
  apply (deleteSourceHandler_then_render sample 10 [1%positive] 4
           [7%positive]);
    [reflexivity | exact Hbefore | exact Hafter | vm_compute; reflexivity].
Defined.

(** ** Records that are not well-formed *)

Lemma bind_Throw {A B} (m : M A) (k : A → M B) st e :
  m st = Throw e → (m ≫= k) st = Throw e.
Proof. intros H. unfold mbind, M_bind. by rewrite H. Qed.

Lemma get_prop_Ok_ref v f st x st' :
  get_prop v f st = Ok (x, st') →
  (∃ s, v = VString s ∧ x = VUndefined)
  ∨ (∃ l, v = VRef l ∧ is_Some (objs st !! l) ∧ x = field (objs st) l f).
Proof.
  unfold get_prop, field. intros H.
  destruct v as [| |s|l]; try discriminate.
  - left. exists s. by simplify_eq.
  - right. exists l. destruct (objs st !! l) as [o|]; [|discriminate].
    simplify_eq. eauto.
Qed.

Lemma set_prop_Ok_ref v f x st st' :
  set_prop v f x st = Ok (tt, st') → ∃ l, v = VRef l ∧ is_Some (objs st !! l).
Proof.
  unfold set_prop. intros H. destruct v as [| |s|l]; try discriminate.
  exists l. destruct (objs st !! l); [eauto | discriminate].
Qed.

(** X8.  The scope path handler returns exactly on the records that have a
    [searchParameters] object with a [scope] object; on every other record
    it raises instead of returning. *)
Theorem searchParametersScopePathChangedHandler_returns_iff
    st sources elems source event :
  arrs st !! sources = Some elems →
  (∃ st', searchParametersScopePathChangedHandler sources source event st
            = Ok (tt, st'))
  ↔ is_Source (objs st) source = true.
Proof.
  intros Hsrc. split.
  - intros [st' Hrun]. unfold searchParametersScopePathChangedHandler in Hrun.
    apply bind_Ok_inv in Hrun as (sp & st1 & Hsp & Hrun).
    pose proof (get_prop_state _ _ _ _ _ Hsp) as ->.
    apply bind_Ok_inv in Hrun as (sc & st2 & Hsc & Hrun).
    pose proof (get_prop_state _ _ _ _ _ Hsc) as ->.
    apply bind_Ok_inv in Hrun as ([] & st3 & Hset & _).
    apply set_prop_Ok_ref in Hset as (scope & -> & Hscope).
    apply get_prop_Ok_ref in Hsc
      as [(? & _ & [=])|(l & -> & _ & Hsc)].
    apply get_prop_Ok_ref in Hsp
      as [(? & [=] & _)|(l' & [= <-] & _ & Hsp)].
    apply bool_decide_eq_true. exists scope.
    apply scope_of_Some. exists l. by rewrite <- Hsp, <- Hsc.
  - intros Htyped.
    apply bool_decide_eq_true in Htyped
      as [scope (sp & Hsp & Hsc & [o Ho])%scope_of_Some].
    eexists. by eapply searchParametersScopePathChangedHandler_run.
Qed.

Lemma searchParametersScopePathChangedHandler_returns_iff_witness :
  arrs untyped_sample !! 10%positive = Some [1%positive]
  ∧ ((∃ st', searchParametersScopePathChangedHandler 10 1 (ev "data")
               untyped_sample = Ok (tt, st'))
     ↔ is_Source (objs untyped_sample) 1 = true).
Proof.
  split; [reflexivity|].
  apply (searchParametersScopePathChangedHandler_returns_iff
           untyped_sample 10 [1%positive] 1 (ev "data")).
  reflexivity.
Defined.

Lemma render_item_throws st index source :
  is_Some (objs st !! source) →
  field (objs st) source "searchParameters" = VUndefined
  ∨ field (objs st) source "searchParameters" = VNull →
  render_item index source st = Throw TypeError.
Proof.
  intros Halloc Hsp. unfold render_item.
  do 5 (erewrite bind_Ok by (by apply get_prop_ref)).
  erewrite bind_Ok by (by apply get_prop_ref).
  apply bind_Throw. by destruct Hsp as [-> | ->].
Qed.

(** X9.  One record without [searchParameters] (the property is undefined
    or null) is enough for the whole view to fail: when the records before
    it are well-formed, rendering raises a [TypeError] and returns no
    view. *)
Theorem render_throws st sources before source after :
  arrs st !! sources = Some (before ++ source :: after) →
  (∀ s, s ∈ before → is_Source (objs st) s = true) →
  is_Some (objs st !! source) →
  field (objs st) source "searchParameters" = VUndefined
  ∨ field (objs st) source "searchParameters" = VNull →
  render sources st = Throw TypeError.
Proof.
  intros Hsrc Hbefore Halloc Hsp. unfold render.
  erewrite bind_Ok by (unfold elements_of; by rewrite Hsrc).
  apply bind_Throw. clear Hsrc. generalize 0%nat.
  induction before as [|s before IH]; intros index; simpl.
  - apply bind_Throw. by apply render_item_throws.
  - erewrite bind_Ok
      by (apply render_item_run, Hbefore, list_elem_of_here).
    apply bind_Throw. apply IH.
    intros s' Hs'. by apply Hbefore, list_elem_of_further.
Qed.

Lemma render_throws_witness :
  arrs untyped_sample !! 10%positive = Some ([] ++ 1%positive :: [])
  ∧ (∀ s, s ∈ [] → is_Source (objs untyped_sample) s = true)
  ∧ is_Some (objs untyped_sample !! 1%positive)
  ∧ (field (objs untyped_sample) 1 "searchParameters" = VUndefined
     ∨ field (objs untyped_sample) 1 "searchParameters" = VNull)
  ∧ render 10 untyped_sample = Throw TypeError.
Proof.
  assert (Hbefore : ∀ s : loc, s ∈ [] → is_Source (objs untyped_sample) s = true)
    by (intros s Hs; by apply elem_of_nil in Hs).
  assert (Halloc : is_Some (objs untyped_sample !! 1%positive))
    by (vm_compute; eauto).
  assert (Hsp : field (objs untyped_sample) 1 "searchParameters" = VUndefined
                ∨ field (objs untyped_sample) 1 "searchParameters" = VNull)
    by (left; vm_compute; reflexivity).
  split; [reflexivity|]. split; [exact Hbefore|]. split; [exact Halloc|].
  split; [exact Hsp|].
  apply (render_throws untyped_sample 10 [] 1 []);
    [reflexivity | exact Hbefore | exact Halloc | exact Hsp].
Defined.

(** ** Round trips *)

(** X10.  The scripts editor of a panel is handed the record's script as a
    one-element list; when it reports that very list back, the handler
    returns and every property of every object reads as before. *)
Theorem scripts_report_round_trip st sources elems i source :
  arrs st !! sources = Some elems →
  Sources_typed st sources = true →
  elems !! i = Some source →
  ∃ view item editor st',
    render sources st = Ok (view, st)
    ∧ items view !! i = Some item
    ∧ editors item = [editor]
    ∧ handle sources (onScriptsChanged editor (scripts editor)) st
        = Ok (tt, st')
    ∧ ∀ l f, field (objs st') l f = field (objs st) l f.
Proof.
  intros Hsrc Htyped Hi.
  apply Sources_typed_elems in Htyped as (elems' & Hsrc' & Hall).
  assert (elems' = elems) as -> by congruence.
  assert (Hin : source ∈ elems) by (apply list_elem_of_lookup; eauto).
  destruct (is_Source_alloc _ _ (Hall source Hin)) as [o Ho].
  eexists _, (panel (objs st) i source), _, _.
  split; [by apply (render_run st sources elems)|]. simpl.
  split; [by rewrite list_lookup_imap, Hi|].
  split; [reflexivity|]. simpl.
  split; [unfold scriptsChanged;
          by apply (set_then_changed st sources elems source o)|].
  simpl. intros l f.
  destruct (decide ((l, f) = (source, "loadConversionScript")))
    as [[= -> ->]|Hne].
  - apply field_insert_eq.
  - by apply field_set_other.
Qed.

Lemma scripts_report_round_trip_witness :
  arrs sample !! 10%positive = Some [1%positive; 4%positive; 7%positive]
  ∧ Sources_typed sample 10 = true
  ∧ [1%positive; 4%positive; 7%positive] !! 2%nat = Some 7%positive
  ∧ ∃ view item editor st',
      render 10 sample = Ok (view, sample)
      ∧ items view !! 2%nat = Some item
      ∧ editors item = [editor]
      ∧ handle 10 (onScriptsChanged editor (scripts editor)) sample
          = Ok (tt, st')
      ∧ ∀ l f, field (objs st') l f = field (objs sample) l f.
Proof.
  split; [reflexivity|]. split; [vm_compute; reflexivity|].
  split; [reflexivity|].
  apply (scripts_report_round_trip sample 10 [1; 4; 7]%positive 2 7%positive);
    [reflexivity | vm_compute; reflexivity | reflexivity].
Defined.

(** X11.  Pressing Add and then, in the next view, deleting the panel that
    was added gives back the list there was: the second callback receives
    the original elements in the original order, and the view rendered from
    it shows in every input what the first view showed. *)
Theorem add_then_delete_round_trip st sources elems :
  arrs st !! sources = Some elems →
  Sources_typed st sources = true →
  ∃ view st1 added s st2 newSources view2,
    render sources st = Ok (view, st)
    ∧ addSourceHandler sources st = Ok (tt, st1)
    ∧ called_back st st1 added (elems ++ [s])
    ∧ deleteSourceHandler added s st1 = Ok (tt, st2)
    ∧ called_back st1 st2 newSources elems
    ∧ render newSources st2 = Ok (view2, st2)
    ∧ length (items view2) = length (items view)
    ∧ ∀ i id, input_shows view2 i id = input_shows view i id.
Proof.
  intros Hsrc Htyped.
  apply Sources_typed_elems in Htyped as (elems' & Hsrc' & Hall).
  assert (elems' = elems) as -> by congruence.
  destruct (new_Source_spec st)
    as (s & h' & Hnew & Hfresh & Hext & _).
  assert (Hnotin : s ∉ elems).
  { intros Hin. destruct (is_Source_alloc _ _ (Hall s Hin)). congruence. }
  assert (Hall' : ∀ source, source ∈ elems → is_Source h' source = true).
  { intros source Hin. apply Hall in Hin as Hsource.
    apply bool_decide_eq_true in Hsource as [scope Hscope].
    apply bool_decide_eq_true. erewrite scope_of_extends; eauto. }
  set (added := fresh (dom (arrs st))).
  set (st1 := State h' (<[added := elems ++ [s]]> (arrs st))
                    (calls st ++ [added])).
  assert (Hadded : arrs st1 !! added = Some (elems ++ [s]))
    by apply lookup_insert_eq.
  eexists _, st1, added, s, _, _, _.
  split; [by apply (render_run st sources elems)|].
  split; [by apply (addSourceHandler_run st sources elems s h')|].
  split; [apply (called_back_alloc h' (arrs st) (calls st))|].
  split; [by apply (deleteSourceHandler_run st1 added (elems ++ [s]))|].
  rewrite filter_app, filter_ne_absent, filter_cons_False, filter_nil,
    app_nil_r by (done || by intros ?).
  split; [apply (called_back_alloc h' (arrs st1) (calls st1))|].
  split.
  { apply (render_run _ _ elems); simpl; [apply lookup_insert_eq | done]. }
  simpl. split; [by rewrite !length_imap|].
  intros i id. rewrite !input_shows_panel.
  destruct (elems !! i) as [source|] eqn:Hi; [|done]. simpl.
  apply shown_extends; [done|]. apply Hall, list_elem_of_lookup. eauto.
Qed.

Lemma add_then_delete_round_trip_witness :
  arrs sample !! 10%positive = Some [1%positive; 4%positive; 7%positive]
  ∧ Sources_typed sample 10 = true
  ∧ ∃ view st1 added s st2 newSources view2,
      render 10 sample = Ok (view, sample)
      ∧ addSourceHandler 10 sample = Ok (tt, st1)
      ∧ called_back sample st1 added ([1%positive; 4%positive; 7%positive] ++ [s])
      ∧ deleteSourceHandler added s st1 = Ok (tt, st2)
      ∧ called_back st1 st2 newSources [1%positive; 4%positive; 7%positive]
      ∧ render newSources st2 = Ok (view2, st2)
      ∧ length (items view2) = length (items view)
      ∧ ∀ i id, input_shows view2 i id = input_shows view i id.
Proof.
  split; [reflexivity|]. split; [vm_compute; reflexivity|].
  apply (add_then_delete_round_trip sample 10 [1; 4; 7]%positive);
    [reflexivity | vm_compute; reflexivity].
Defined.

(** ** Sharing between the old array and the new one *)

(** X12.  An edit (a text input, the scope path, the scripts editor) changes
    the record in place and wraps the same references in a new array: after
    it, the array [sources] the view was rendered from and the array handed
    to the callback are two different arrays that render to the same
    view. *)
Theorem edits_are_in_place st sources view event reported act :
  Sources_typed st sources = true →
  render sources st = Ok (view, st) →
  act ∈ view_actions event reported view →
  is_Some (edited act) →
  ∃ st' newSources view',
    handle sources act st = Ok (tt, st')
    ∧ last (calls st') = Some newSources
    ∧ newSources ≠ sources
    ∧ render newSources st' = Ok (view', st')
    ∧ render sources st' = Ok (view', st').
Proof.
  intros Htyped Hrender Hact Hedit.
  pose proof Htyped as (elems & Hsrc & Hall)%Sources_typed_elems.
  rewrite (render_run st sources elems) in Hrender by done.
  injection Hrender as <-.
  apply (view_action_rendered st sources elems) in Hact
    as [Hrendered Hwired]; [|done].
  pose proof (rendered_typed _ _ _ Htyped Hrendered) as Hedited.
  destruct (handle_run st sources elems act Hsrc Hedited)
    as (st' & newSources & passed & Hrun & Hcb & Hpassed).
  rewrite (Hpassed Hedit) in Hcb. clear Hpassed.
  destruct (handle_keeps_Sources_typed st sources act st'
              Htyped Hrendered Hwired Hrun) as (a & Hlast & Htyped').
  assert (Hne : newSources ≠ sources)
    by (eapply called_back_ne; [|exact Hcb]; eauto).
  destruct Hcb as (Hcalls & _ & Hnew & Hother).
  rewrite Hcalls, last_snoc in Hlast. injection Hlast as <-.
  apply Sources_typed_elems in Htyped' as (elems' & Hsrc' & Hall').
  assert (elems' = elems) as -> by congruence.
  eexists st', newSources, _.
  split; [done|]. split; [by rewrite Hcalls, last_snoc|]. split; [done|].
  split; [by apply (render_run st' newSources elems)|].
  apply (render_run st' sources elems); [|done].
  by rewrite Hother.
Qed.

Lemma edits_are_in_place_witness :
  Sources_typed sample 10 = true
  ∧ render 10 sample = Ok (sample_view, sample)
  ∧ FieldEdit "filename" 1 (ev "b.bib")
      ∈ view_actions (ev "b.bib") [] sample_view
  ∧ is_Some (edited (FieldEdit "filename" 1 (ev "b.bib")))
  ∧ ∃ st' newSources view',
      handle 10 (FieldEdit "filename" 1 (ev "b.bib")) sample = Ok (tt, st')
      ∧ last (calls st') = Some newSources
      ∧ newSources ≠ 10%positive
      ∧ render newSources st' = Ok (view', st')
      ∧ render 10 st' = Ok (view', st').
Proof.
  assert (Hrender : render 10 sample = Ok (sample_view, sample))
    by (vm_compute; reflexivity).
  assert (Hact : FieldEdit "filename" 1 (ev "b.bib")
                   ∈ view_actions (ev "b.bib") [] sample_view).
  { unfold view_actions, sample_view. simpl.
    repeat first [apply list_elem_of_here | apply list_elem_of_further]. }
  assert (Hedit : is_Some (edited (FieldEdit "filename" 1 (ev "b.bib"))))
    by (simpl; eauto).
  split; [vm_compute; reflexivity|]. split; [exact Hrender|].
  split; [exact Hact|]. split; [exact Hedit|].
  apply (edits_are_in_place sample 10 sample_view (ev "b.bib") []
           (FieldEdit "filename" 1 (ev "b.bib")));
    [vm_compute; reflexivity | exact Hrender | exact Hact | exact Hedit].
Defined.

(** X13.  A handler starts from the array of the view it was created in,
    not from the array passed last: when Add is fired from the same view
    after a delete, with no new view in between, the array it passes is the
    whole of [sources] followed by the new source, the deleted record
    included. *)
Theorem add_after_delete_in_same_view st sources elems source :
  arrs st !! sources = Some elems →
  ∃ st1 deleted kept st2 newSources s,
    deleteSourceHandler sources source st = Ok (tt, st1)
    ∧ called_back st st1 deleted kept
    ∧ (source ∉ kept)
    ∧ addSourceHandler sources st1 = Ok (tt, st2)
    ∧ called_back st1 st2 newSources (elems ++ [s]).
Proof.
  intros Hsrc.
  set (deleted := fresh (dom (arrs st))).
  set (kept := filter (λ s, s ≠ source) elems).
  set (st1 := State (objs st) (<[deleted := kept]> (arrs st))
                    (calls st ++ [deleted])).
  assert (Hsrc1 : arrs st1 !! sources = Some elems).
  { simpl. rewrite lookup_insert_ne; [done|]. intros Heq.
    pose proof (fresh_array (arrs st)) as Hf. fold deleted in Hf.
    rewrite Heq in Hf. congruence. }
  destruct (new_Source_spec st1) as (s & h' & Hnew & _).
  eexists st1, deleted, kept, _, _, s.
  split; [by apply deleteSourceHandler_run|].
  split; [apply called_back_alloc|].
  split; [by intros [Hne _]%list_elem_of_filter|].
  split; [by apply (addSourceHandler_run st1 sources elems s h')|].
  apply (called_back_alloc h' (arrs st1) (calls st1)).
Qed.

Lemma add_after_delete_in_same_view_witness :
  arrs sample !! 10%positive = Some [1%positive; 4%positive; 7%positive]
  ∧ ∃ st1 deleted kept st2 newSources s,
      deleteSourceHandler 10 4 sample = Ok (tt, st1)
      ∧ called_back sample st1 deleted kept
      ∧ (4%positive ∉ kept)
      ∧ addSourceHandler 10 st1 = Ok (tt, st2)
      ∧ called_back st1 st2 newSources
          ([1%positive; 4%positive; 7%positive] ++ [s]).
Proof.
  split; [reflexivity|].
  apply (add_after_delete_in_same_view sample 10 [1; 4; 7]%positive 4).
  reflexivity.
Defined.

(** ** What the scripts editor gets back *)

(** X14.  Whatever list the scripts editor reports, the next view hands it
    a list of exactly one element: the first script reported, the rest
    being dropped, or [undefined] when the report was empty. *)
Theorem scriptsChanged_then_render st sources elems i source reported :
  arrs st !! sources = Some elems →
  Sources_typed st sources = true →
  elems !! i = Some source →
  ∃ st' newSources view' item editor,
    scriptsChanged sources source reported st = Ok (tt, st')
    ∧ last (calls st') = Some newSources
    ∧ render newSources st' = Ok (view', st')
    ∧ items view' !! i = Some item
    ∧ editors item = [editor]
    ∧ scripts editor = [match reported with
                        | [] => VUndefined
                        | first :: _ => first
                        end].
Proof.
  intros Hsrc Htyped Hi.
  apply Sources_typed_elems in Htyped as (elems' & Hsrc' & Hall).
  assert (elems' = elems) as -> by congruence.
  assert (Hin : source ∈ elems) by (apply list_elem_of_lookup; eauto).
  destruct (is_Source_alloc _ _ (Hall source Hin)) as [o Ho].
  eexists _, _, _, _, _.
  split; [unfold scriptsChanged;
          by apply (set_then_changed st sources elems source o)|].
  split; [apply last_snoc|].
  split.
  { apply (render_run _ _ elems); simpl; [apply lookup_insert_eq|].
    intros s Hs. rewrite is_Source_set_field by done. by apply Hall. }
  simpl. split; [by rewrite list_lookup_imap, Hi|].
  split; [reflexivity|]. simpl.
  rewrite field_insert_eq. by destruct reported.
Qed.

Lemma scriptsChanged_then_render_witness :
  arrs sample !! 10%positive = Some [1%positive; 4%positive; 7%positive]
  ∧ Sources_typed sample 10 = true
  ∧ [1%positive; 4%positive; 7%positive] !! 0%nat = Some 1%positive
  ∧ ∃ st' newSources view' item editor,
      scriptsChanged 10 1 [] sample = Ok (tt, st')
      ∧ last (calls st') = Some newSources
      ∧ render newSources st' = Ok (view', st')
      ∧ items view' !! 0%nat = Some item
      ∧ editors item = [editor]
      ∧ scripts editor = [VUndefined].
Proof.
  split; [reflexivity|]. split; [vm_compute; reflexivity|].
  split; [reflexivity|].
  apply (scriptsChanged_then_render sample 10 [1; 4; 7]%positive 0 1 []);
    [reflexivity | vm_compute; reflexivity | reflexivity].
Defined.
